(* ===================================================================== *)
(*  weewx-digiwx: the DigiWX serial driver (bin/user/digiwx.py)          *)
(*                                                                       *)
(*  A shallow embedding of the driver's station class and packet         *)
(*  adapter, and the properties of the record parser, the retry loop,    *)
(*  the constructors and the connection life cycle.                      *)
(*                                                                       *)
(*  Conventions.                                                         *)
(*  - Strings are byte strings, as under the Python 2 interpreter for    *)
(*    which get_data's `ord(c) for c in buf` is well typed.              *)
(*  - A Python object is its attribute dictionary (gmap string value).   *)
(*  - Code that can raise runs in the monad Py: a state transformer     *)
(*    over the interpreter state that returns Ok or Raise; the state     *)
(*    reached when an exception is raised is kept, as in Python.         *)
(*  - A binary64 float is a SpecFloat.spec_float at precision 53.        *)
(* ===================================================================== *)

From Stdlib Require Import ZArith Ascii String List Lia Bool.
From Stdlib Require Import Floats.SpecFloat.
From stdpp Require Import base option gmap strings list fin_maps.

Open Scope Z_scope.
Open Scope string_scope.
Open Scope list_scope.

(* --------------------------------------------------------------------- *)
(* Python values, exceptions and outcomes                                *)
(* --------------------------------------------------------------------- *)

Inductive value :=
| VNone
| VInt (z : Z)
| VFloat (f : spec_float)
| VStr (s : string)
| VSerial (dev : string)        (* an open serial.Serial object *)
| VRef (addr : nat)             (* an instance, by its address *)
| VObj (what : string).         (* a module, class, function or method *)

Inductive exn :=
| NameError (name : string)
| AttributeError (attr : string)
| KeyError (key : string)
| IndexError
| ValueError
| TypeError
| IOError
| SerialException (msg : string)
| WeeWxIOError (msg : string)
| RetriesExceeded (msg : string).

Inductive outcome (A : Type) :=
| Ok (a : A)
| Raise (e : exn).
Arguments Ok {A} a.
Arguments Raise {A} e.

(** A Python dict with string keys, and an object seen as its attribute
    dictionary. *)
Abbreviation dict := (gmap string value).

(* --------------------------------------------------------------------- *)
(* Byte-string primitives: str.split(','), str.strip()                   *)
(* --------------------------------------------------------------------- *)

Definition comma : ascii := ","%char.

(** [s.split(',')]: the tokens between commas; never the empty list. *)
Fixpoint str_split (s : string) : list string :=
  match s with
  | EmptyString => [EmptyString]
  | String c r =>
      if Ascii.eqb c comma then EmptyString :: str_split r
      else match str_split r with
           | t :: ts => String c t :: ts
           | [] => [String c EmptyString]
           end
  end.

(** C isspace in the "C" locale: space, \t, \n, \v, \f, \r. *)
Definition is_space (c : ascii) : bool :=
  let n := nat_of_ascii c in
  (Nat.eqb n 32 || (Nat.leb 9 n && Nat.leb n 13))%bool.

Fixpoint lstrip (s : string) : string :=
  match s with
  | EmptyString => EmptyString
  | String c r => if is_space c then lstrip r else s
  end.

(** Drop trailing white space: a character is kept when it is not a space
    or when something is kept after it. *)
Fixpoint rstrip (s : string) : string :=
  match s with
  | EmptyString => EmptyString
  | String c r =>
      match rstrip r with
      | EmptyString => if is_space c then EmptyString else String c EmptyString
      | r' => String c r'
      end
  end.

Definition strip (s : string) : string := rstrip (lstrip s).

(* --------------------------------------------------------------------- *)
(* int(str) and float(str)                                               *)
(* --------------------------------------------------------------------- *)

Definition is_digit (c : ascii) : bool :=
  let n := nat_of_ascii c in (Nat.leb 48 n && Nat.leb n 57)%bool.

Definition digit_val (c : ascii) : Z := Z.of_nat (nat_of_ascii c) - 48.

(** Read a maximal run of decimal digits: the accumulated value, how many
    digits were read, and what follows them. *)
Fixpoint digits (acc : Z) (n : nat) (s : string) : Z * nat * string :=
  match s with
  | String c r =>
      if is_digit c then digits (10 * acc + digit_val c) (S n) r
      else (acc, n, s)
  | EmptyString => (acc, n, s)
  end.

(** An optional sign: [true] for a minus. *)
Definition sign (s : string) : bool * string :=
  match s with
  | String "-" r => (true, r)
  | String "+" r => (false, r)
  | _ => (false, s)
  end.

(** [int(s)] for a byte string, base 10: white space, an optional sign, at
    least one digit, white space.  Anything else is a ValueError; the
    grammar of byte strings has no digit separators. *)
Definition py_int (s : string) : outcome Z :=
  let '(neg, body) := sign (strip s) in
  match digits 0 0 body with
  | (v, S _, EmptyString) => Ok (if neg then - v else v)
  | _ => Raise ValueError
  end.

Definition prec64 : Z := 53.
Definition emax64 : Z := 1024.

(** The binary64 nearest to (-1)^neg * m * 10^e, ties to even, for m >= 0:
    the result of a correctly rounded strtod. *)
Definition b64_of_decimal (neg : bool) (m e : Z) : spec_float :=
  match m with
  | Zpos p =>
      if (0 <=? e)%Z
      then binary_normalize prec64 emax64 (if neg then - (m * 10 ^ e) else m * 10 ^ e) 0 neg
      else SFdiv prec64 emax64 (S754_finite neg p 0)
                               (S754_finite false (Z.to_pos (10 ^ (- e))) 0)
  | _ => S754_zero neg
  end.

Definition lower (c : ascii) : ascii :=
  let n := nat_of_ascii c in
  if (Nat.leb 65 n && Nat.leb n 90)%bool then ascii_of_nat (n + 32) else c.

Fixpoint lowercase (s : string) : string :=
  match s with
  | EmptyString => EmptyString
  | String c r => String (lower c) (lowercase r)
  end.

(** The exponent part of a float literal, when there is one: [e] or [E], an
    optional sign and at least one digit.  [None] when the text is not a
    well-formed exponent. *)
Definition exponent (s : string) : option (Z * string) :=
  match s with
  | String c r =>
      if (Ascii.eqb c "e" || Ascii.eqb c "E")%bool then
        let '(eneg, r1) := sign r in
        match digits 0 0 r1 with
        | (v, S _, rest) => Some (if eneg then - v else v, rest)
        | _ => None
        end
      else Some (0, s)
  | EmptyString => Some (0, s)
  end.

(** [float(s)] for a byte string: white space, an optional sign, then
    inf, infinity or nan in any case, or a decimal literal with an
    optional fraction and exponent and at least one digit in the
    mantissa; white space.  Anything else is a ValueError. *)
Definition py_float (s : string) : outcome spec_float :=
  let '(neg, body) := sign (strip s) in
  let word := lowercase body in
  if (String.eqb word "inf" || String.eqb word "infinity")%bool
  then Ok (S754_infinity neg)
  else if String.eqb word "nan" then Ok S754_nan
  else
    let '(vi, ni, r1) := digits 0 0 body in
    let '(vf, nf, r2) :=
      match r1 with
      | String "." r => digits vi 0 r
      | _ => (vi, 0%nat, r1)
      end in
    match (ni + nf)%nat, exponent r2 with
    | S _, Some (ex, EmptyString) =>
        Ok (b64_of_decimal neg vf (ex - Z.of_nat nf))
    | _, _ => Raise ValueError
    end.

(* --------------------------------------------------------------------- *)
(* Code that can raise but touches no state: the outcome monad           *)
(* --------------------------------------------------------------------- *)

Definition obind {A B} (m : outcome A) (k : A -> outcome B) : outcome B :=
  match m with
  | Ok a => k a
  | Raise e => Raise e
  end.

Declare Scope outcome_scope.
Delimit Scope outcome_scope with outcome.
Notation "x <~ m ;; k" := (obind m (fun x => k))
  (at level 100, m at next level, right associativity) : outcome_scope.

(** [parts[i]] on a list: IndexError out of range.  The indices in the
    source are non-negative literals. *)
Definition getitem (parts : list string) (i : nat) : outcome string :=
  match parts !! i with
  | Some t => Ok t
  | None => Raise IndexError
  end.

(** [data[k]] on a dict: KeyError when the key is missing. *)
Definition subscript (data : dict) (k : string) : outcome value :=
  match data !! k with
  | Some v => Ok v
  | None => Raise (KeyError k)
  end.

(** [data.get(k)]: None when the key is missing. *)
Definition dict_get (data : dict) (k : string) : value :=
  default VNone (data !! k).

(* --------------------------------------------------------------------- *)
(* The interpreter state and the monad of code with effects              *)
(* --------------------------------------------------------------------- *)

Inductive level := DEBUG | INFO | ERROR.

(** What the next [readline()] on the serial line does: hand over the
    bytes received before the line end or the time-out, or raise. *)
Inductive read_event :=
| Line (buf : string)
| Fault (e : exn).

Inductive klass := KStation | KDriver.

Record object := mkObject { cls : klass; attrs : dict }.

Record state := mkState {
  heap : gmap nat object;          (* the objects, by address *)
  log : list (level * string);     (* the log sink, oldest first *)
  naps : list value;               (* the arguments of time.sleep, oldest first *)
  feed : list read_event;          (* the coming behaviour of the line *)
  reads : nat;                     (* how many times readline was called *)
  devices : list string;           (* the paths serial.Serial can open *)
  held : list string;              (* the paths held open *)
  now : Z                          (* int(time.time() + 0.5) *)
}.

Definition Py (A : Type) : Type := state -> outcome A * state.

Definition ret {A} (a : A) : Py A := fun st => (Ok a, st).

Definition raise {A} (e : exn) : Py A := fun st => (Raise e, st).

Definition bind {A B} (m : Py A) (k : A -> Py B) : Py B :=
  fun st =>
    match m st with
    | (Ok a, st') => k a st'
    | (Raise e, st') => (Raise e, st')
    end.

Definition lift {A} (o : outcome A) : Py A := fun st => (o, st).

Declare Scope py_scope.
Delimit Scope py_scope with py.
Notation "x <- m ;; k" := (bind m (fun x => k))
  (at level 100, m at next level, right associativity) : py_scope.
Notation "m ;;; k" := (bind m (fun _ => k))
  (at level 100, right associativity) : py_scope.

(** try: m / except <the exceptions h answers to> as e: h e.  An exception
    h does not answer to goes on to the caller. *)
Definition try_except {A} (m : Py A) (h : exn -> option (Py A)) : Py A :=
  fun st =>
    match m st with
    | (Ok a, st') => (Ok a, st')
    | (Raise e, st') =>
        match h e with
        | Some k => k st'
        | None => (Raise e, st')
        end
    end.

Definition set_heap (h : gmap nat object) (st : state) : state :=
  mkState h (log st) (naps st) (feed st) (reads st) (devices st) (held st) (now st).
Definition set_log (l : list (level * string)) (st : state) : state :=
  mkState (heap st) l (naps st) (feed st) (reads st) (devices st) (held st) (now st).
Definition set_naps (n : list value) (st : state) : state :=
  mkState (heap st) (log st) n (feed st) (reads st) (devices st) (held st) (now st).
Definition set_held (d : list string) (st : state) : state :=
  mkState (heap st) (log st) (naps st) (feed st) (reads st) (devices st) d (now st).

(** One more call of readline, the line's coming behaviour now [f]. *)
Definition set_feed (f : list read_event) (st : state) : state :=
  mkState (heap st) (log st) (naps st) f (S (reads st)) (devices st) (held st) (now st).

(* --------------------------------------------------------------------- *)
(* Names: module globals and builtins                                    *)
(* --------------------------------------------------------------------- *)

(** The names the module binds at its top level, those of the block under
    [if __name__ == '__main__'] included. *)
Definition module_globals : list string :=
  [ "__name__"; "__doc__"; "__file__"; "__package__"; "__builtins__";
    "with_statement"; "print_function";
    "serial"; "syslog"; "time"; "weewx"; "calculate_rain";
    "DRIVER_NAME"; "DRIVER_VERSION"; "loader"; "confeditor_loader";
    "logging"; "log"; "logdbg"; "loginf"; "logerr";
    "DigiWXConfigurationEditor"; "DigiWXDriver"; "DigiWXStation";
    "optparse"; "usage"; "parser"; "options"; "args"; "s"; "raw" ].

(** The names of the builtin module. *)
Definition builtins : list string :=
  [ "ArithmeticError"; "AssertionError"; "AttributeError"; "BaseException";
    "BufferError"; "BytesWarning"; "DeprecationWarning"; "EOFError";
    "Ellipsis"; "EnvironmentError"; "Exception"; "False";
    "FloatingPointError"; "FutureWarning"; "GeneratorExit"; "IOError";
    "ImportError"; "ImportWarning"; "IndentationError"; "IndexError";
    "KeyError"; "KeyboardInterrupt"; "LookupError"; "MemoryError";
    "NameError"; "None"; "NotImplemented"; "NotImplementedError";
    "OSError"; "OverflowError"; "PendingDeprecationWarning";
    "ReferenceError"; "RuntimeError"; "RuntimeWarning"; "StandardError";
    "StopIteration"; "SyntaxError"; "SyntaxWarning"; "SystemError";
    "SystemExit"; "TabError"; "True"; "TypeError"; "UnboundLocalError";
    "UnicodeDecodeError"; "UnicodeEncodeError"; "UnicodeError";
    "UnicodeTranslateError"; "UnicodeWarning"; "UserWarning"; "ValueError";
    "Warning"; "ZeroDivisionError"; "__debug__"; "__doc__"; "__import__";
    "__name__"; "__package__"; "abs"; "all"; "any"; "apply"; "basestring";
    "bin"; "bool"; "buffer"; "bytearray"; "bytes"; "callable"; "chr";
    "classmethod"; "cmp"; "coerce"; "compile"; "complex"; "copyright";
    "credits"; "delattr"; "dict"; "dir"; "divmod"; "enumerate"; "eval";
    "execfile"; "exit"; "file"; "filter"; "float"; "format"; "frozenset";
    "getattr"; "globals"; "hasattr"; "hash"; "help"; "hex"; "id"; "input";
    "int"; "intern"; "isinstance"; "issubclass"; "iter"; "len"; "license";
    "list"; "locals"; "long"; "map"; "max"; "memoryview"; "min"; "next";
    "object"; "oct"; "open"; "ord"; "pow"; "print"; "property"; "quit";
    "range"; "raw_input"; "reduce"; "reload"; "repr"; "reversed"; "round";
    "set"; "setattr"; "slice"; "sorted"; "staticmethod"; "str"; "sum";
    "super"; "tuple"; "type"; "unichr"; "unicode"; "vars"; "xrange"; "zip" ].

Definition mem (x : string) (l : list string) : bool :=
  existsb (String.eqb x) l.

(** A name that the function does not assign is looked up in the module's
    globals, then in the builtins; NameError when it is in neither. *)
Definition load_global (name : string) : Py value :=
  if (mem name module_globals || mem name builtins)%bool
  then ret (VObj name)
  else raise (NameError name).

(* --------------------------------------------------------------------- *)
(* Objects and attributes                                                *)
(* --------------------------------------------------------------------- *)

(** The attributes a class provides to its instances: what its body
    defines, and what [object] and the driver base class provide. *)
Definition object_attrs : list string :=
  [ "__class__"; "__delattr__"; "__dict__"; "__doc__"; "__format__";
    "__getattribute__"; "__hash__"; "__init__"; "__module__"; "__new__";
    "__reduce__"; "__reduce_ex__"; "__repr__"; "__setattr__";
    "__sizeof__"; "__str__"; "__subclasshook__"; "__weakref__" ].

Definition class_attrs (k : klass) : list string :=
  match k with
  | KStation =>
      [ "DEFAULT_PORT"; "__enter__"; "__exit__"; "open"; "close";
        "get_data"; "get_data_with_retry"; "get_current"; "parse_current";
        "parse_int"; "parse_float" ] ++ object_attrs
  | KDriver =>
      [ "closePort"; "hardware_name"; "genLoopPackets"; "_data_to_packet";
        "genArchiveRecords"; "genStartupRecords"; "getTime"; "setTime" ]
      ++ object_attrs
  end.

(** [self.name]: the instance's own attribute, else the class's, else
    AttributeError. *)
Definition getattr (self : nat) (name : string) : Py value :=
  fun st =>
    match heap st !! self with
    | Some o =>
        match attrs o !! name with
        | Some v => (Ok v, st)
        | None =>
            if mem name (class_attrs (cls o)) then (Ok (VObj name), st)
            else (Raise (AttributeError name), st)
        end
    | None => (Raise (AttributeError name), st)
    end.

(** [self.name = v] *)
Definition setattr (self : nat) (name : string) (v : value) : Py unit :=
  fun st =>
    match heap st !! self with
    | Some o =>
        (Ok tt,
         set_heap (<[self := mkObject (cls o) (<[name := v]> (attrs o))]> (heap st)) st)
    | None => (Raise (AttributeError name), st)
    end.

(** The first address the heap does not use. *)
Definition fresh_addr (h : gmap nat object) : nat :=
  S (map_fold (fun a _ m => Nat.max a m) 0%nat h).

(** Allocate an instance with no attribute yet. *)
Definition new (k : klass) : Py nat :=
  fun st =>
    let a := fresh_addr (heap st) in
    (Ok a, set_heap (<[a := mkObject k ∅]> (heap st)) st).

(* --------------------------------------------------------------------- *)
(* The collaborators: logging, time, pyserial, string formatting         *)
(* --------------------------------------------------------------------- *)

Definition log_at (l : level) (msg : string) : Py unit :=
  fun st => (Ok tt, set_log (log st ++ [(l, msg)]) st).

(** The module picks the [logging] backend when it is loaded. *)
Definition logdbg : string -> Py unit := log_at DEBUG.
Definition loginf : string -> Py unit := log_at INFO.
Definition logerr : string -> Py unit := log_at ERROR.

(** [time.sleep(v)]: a number of seconds; a negative one is the
    interpreter's IOError (invalid argument). *)
Definition sleep (v : value) : Py unit :=
  fun st =>
    match v with
    | VInt z =>
        if (z <? 0)%Z then (Raise IOError, st)
        else (Ok tt, set_naps (naps st ++ [v]) st)
    | VFloat f =>
        if SFltb f (S754_zero false) then (Raise IOError, st)
        else (Ok tt, set_naps (naps st ++ [v]) st)
    | _ => (Raise TypeError, st)
    end.

(** Decimal digits of a natural number, most significant first. *)
Fixpoint dec_digits (fuel n : nat) (acc : string) : string :=
  match fuel with
  | O => acc
  | S f =>
      let acc' := String (ascii_of_nat (48 + n mod 10)) acc in
      if (n <? 10)%nat then acc' else dec_digits f (n / 10) acc'
  end.

Definition str_of_Z (z : Z) : string :=
  let n := Z.to_nat (Z.abs z) in
  let d := dec_digits (S n) n EmptyString in
  if (z <? 0)%Z then String "-" d else d.

(** ['%d' % v]: a float is truncated toward zero. *)
Definition fmt_d (v : value) : outcome string :=
  match v with
  | VInt z => Ok (str_of_Z z)
  | VFloat (S754_finite sg m e) =>
      let mag := if (0 <=? e)%Z then Z.pos m * 2 ^ e else Z.pos m / 2 ^ (- e) in
      Ok (str_of_Z (if sg then - mag else mag))
  | VFloat (S754_zero _) => Ok "0"
  | VFloat _ => Raise ValueError
  | _ => Raise TypeError
  end.

Definition hex_digit (n : nat) : ascii :=
  if (n <? 10)%nat then ascii_of_nat (48 + n) else ascii_of_nat (55 + n).

(** ['%0.2X' % ord(c)] *)
Definition hex2 (c : ascii) : string :=
  let n := nat_of_ascii c in
  String (hex_digit (n / 16)) (String (hex_digit (n mod 16)) EmptyString).

(** [' '.join(l)] *)
Fixpoint join_sp (l : list string) : string :=
  match l with
  | [] => EmptyString
  | [x] => x
  | x :: r => x ++ " " ++ join_sp r
  end.

Fixpoint chars (s : string) : list ascii :=
  match s with
  | EmptyString => []
  | String c r => c :: chars r
  end.

(** [str(e)] for the exceptions the retry loop reports. *)
Definition exn_str (e : exn) : string :=
  match e with
  | SerialException msg | WeeWxIOError msg | RetriesExceeded msg => msg
  | NameError n => "name '" ++ n ++ "' is not defined"
  | AttributeError a => "object has no attribute '" ++ a ++ "'"
  | KeyError k => "'" ++ k ++ "'"
  | IndexError => "list index out of range"
  | ValueError => "invalid literal"
  | TypeError => "bad operand type"
  | IOError => "Invalid argument"
  end.

(** ['%s' % v] for the values the driver formats: None, integers and
    strings.  The text of a float or of an object is not modelled; a fixed
    word stands for it. *)
Definition fmt_s (v : value) : string :=
  match v with
  | VNone => "None"
  | VInt z => str_of_Z z
  | VStr s => s
  | VSerial dev => "Serial(" ++ dev ++ ")"
  | VObj what => what
  | VRef _ => "object"
  | VFloat _ => "float"
  end.

(** [serial.Serial(port, baudrate, timeout=timeout)]: SerialException when
    the device cannot be opened. *)
Definition serial_Serial (port baudrate timeout : value) : Py value :=
  fun st =>
    match port with
    | VStr p =>
        if mem p (devices st)
        then (Ok (VSerial p), set_held (p :: held st) st)
        else (Raise (SerialException ("could not open port " ++ p)), st)
    | _ => (Raise (SerialException "could not open port"), st)
    end.

(** [sp.close()] on whatever [self.serial_port] holds. *)
Definition serial_close (sp : value) : Py unit :=
  fun st =>
    match sp with
    | VSerial p =>
        (Ok tt, set_held (List.filter (fun q => negb (String.eqb p q)) (held st)) st)
    | _ => (Raise (AttributeError "close"), st)
    end.

(** [sp.readline()]: the next event of the line; nothing to read is the
    empty string of a time-out. *)
Definition serial_readline (sp : value) : Py string :=
  fun st =>
    match sp with
    | VSerial _ =>
        match feed st with
        | [] => (Ok EmptyString, set_feed [] st)
        | Line buf :: rest => (Ok buf, set_feed rest st)
        | Fault e :: rest => (Raise e, set_feed rest st)
        end
    | _ => (Raise (AttributeError "readline"), st)
    end.

(* --------------------------------------------------------------------- *)
(* class DigiWXStation: the link manager and the record parser           *)
(* --------------------------------------------------------------------- *)

Module DigiWXStation.

Definition DEFAULT_PORT : string := "/dev/ttyS0".

(** def __init__(self, port) *)
Definition __init__ (self : nat) (port : value) : Py unit :=
  (setattr self "port" port ;;;
   setattr self "baudrate" (VInt 19200) ;;;
   setattr self "timeout" (VInt 3) ;;;
   v <- load_global "max_tries" ;;
   setattr self "max_tries" v ;;;
   w <- load_global "retry_wait" ;;
   setattr self "retry_wait" w ;;;
   setattr self "serial_port" VNone)%py.

(** The call [DigiWXStation(port)]: allocate, initialise, hand over. *)
Definition construct (port : value) : Py nat :=
  (self <- new KStation ;;
   __init__ self port ;;;
   ret self)%py.

(** def open(self) *)
Definition open (self : nat) : Py unit :=
  (p <- getattr self "port" ;;
   logdbg ("open serial port " ++ fmt_s p)%string ;;;
   port <- getattr self "port" ;;
   baudrate <- getattr self "baudrate" ;;
   timeout <- getattr self "timeout" ;;
   sp <- serial_Serial port baudrate timeout ;;
   setattr self "serial_port" sp)%py.


(** def close(self) *)
Definition close (self : nat) : Py unit :=
  (sp <- getattr self "serial_port" ;;
   match sp with
   | VNone => ret tt
   | _ =>
       p <- getattr self "port" ;;
       logdbg ("close serial port " ++ fmt_s p)%string ;;;
       sp' <- getattr self "serial_port" ;;
       serial_close sp' ;;;
       setattr self "serial_port" VNone
   end)%py.


(** def get_data(self) *)
Definition get_data (self : nat) : Py string :=
  (sp <- getattr self "serial_port" ;;
   buf <- serial_readline sp ;;
   logdbg ("station said: " ++ join_sp (map hex2 (chars buf)))%string ;;;
   ret (strip buf))%py.

(** The exceptions the retry loop's except clause names. *)
Definition transport_fault (e : exn) : bool :=
  match e with
  | SerialException _ | WeeWxIOError _ => true
  | _ => false
  end.

(** The else clause of the for loop: reached when the loop runs out. *)
Definition retries_exceeded (self : nat) : Py string :=
  (m <- getattr self "_max_tries" ;;
   cmd <- load_global "cmd" ;;
   d <- lift (fmt_d m) ;;
   let msg := ("Max retries (" ++ d ++ ") exceeded for command '"
               ++ fmt_s cmd ++ "'")%string in
   logerr msg ;;;
   raise (RetriesExceeded msg))%py.

(** The iterations of [for ntries in range(0, self.max_tries)] from
    [ntries] on, [todo] of them. *)
Fixpoint retry_loop (self : nat) (ntries : Z) (todo : nat) : Py string :=
  match todo with
  | O => retries_exceeded self
  | S todo' =>
      try_except (get_data self)
        (fun e =>
           if transport_fault e then
             Some (m <- getattr self "max_tries" ;;
                   a <- lift (fmt_d (VInt (ntries + 1))) ;;
                   b <- lift (fmt_d m) ;;
                   loginf ("Failed attempt " ++ a ++ " of " ++ b
                           ++ " to get readings: " ++ exn_str e)%string ;;;
                   w <- getattr self "retry_wait" ;;
                   sleep w ;;;
                   retry_loop self (ntries + 1) todo')%py
           else None)
  end.

(** def get_data_with_retry(self) *)
Definition get_data_with_retry (self : nat) : Py string :=
  (m <- getattr self "max_tries" ;;
   match m with
   | VInt n => retry_loop self 0 (Z.to_nat n)
   | _ => raise TypeError
   end)%py.

(** def get_current(self) *)
Definition get_current (self : nat) : Py string := get_data_with_retry self.

(** try: return int(s) / except ValueError: pass / return None *)
Definition parse_int (s : string) : outcome value :=
  match py_int s with
  | Ok z => Ok (VInt z)
  | Raise ValueError => Ok VNone
  | Raise e => Raise e
  end.

(** try: return float(s) / except ValueError: pass / return None *)
Definition parse_float (s : string) : outcome value :=
  match py_float s with
  | Ok f => Ok (VFloat f)
  | Raise ValueError => Ok VNone
  | Raise e => Raise e
  end.

(** The dict display of parse_current, its six items evaluated in source
    order. *)
Definition parse_current (s : string) : outcome dict :=
  (let parts := str_split s in
   temperature <~ (t <~ getitem parts 1 ;; parse_int t) ;;
   dewpoint <~ (t <~ getitem parts 21 ;; parse_int t) ;;
   humidity <~ (t <~ getitem parts 3 ;; parse_int t) ;;
   wind_dir <~ (t <~ getitem parts 4 ;; parse_int t) ;;
   wind_speed <~ (t <~ getitem parts 5 ;; parse_int t) ;;
   pressure <~ (t <~ getitem parts 8 ;; parse_float t) ;;
   Ok (<["temperature" := temperature]>
       (<["dewpoint" := dewpoint]>
       (<["humidity" := humidity]>
       (<["wind_dir" := wind_dir]>
       (<["wind_speed" := wind_speed]>
       (<["pressure" := pressure]> (∅ : dict))))))))%outcome.

End DigiWXStation.

(* --------------------------------------------------------------------- *)
(* class DigiWXDriver: the adapter to the host engine                    *)
(* --------------------------------------------------------------------- *)

Definition DRIVER_NAME : string := "DigiWX".
Definition DRIVER_VERSION : string := "0.1".

(** [weewx.US], the host's tag of the US customary unit system. *)
Definition weewx_US : Z := 1.

Module DigiWXDriver.

Section Adapter.

(** [weewx.wxformulas.calculate_rain(newtotal, oldtotal)], the host's
    rain-accumulation helper. *)
Variable calculate_rain : value -> value -> Py value.

(** def __init__(self, stn_dict), the keywords as a dict *)
Definition __init__ (self : nat) (stn_dict : dict) : Py unit :=
  (loginf ("driver version is " ++ DRIVER_VERSION)%string ;;;
   setattr self "_model" (default (VStr "WRL") (stn_dict !! "model")) ;;;
   let port := default (VStr DigiWXStation.DEFAULT_PORT) (stn_dict !! "port") in
   setattr self "last_rain" VNone ;;;
   station <- DigiWXStation.construct port ;;
   setattr self "_station" (VRef station) ;;;
   s <- getattr self "_station" ;;
   match s with
   | VRef a => DigiWXStation.open a
   | _ => raise (AttributeError "open")
   end)%py.

(** The call of the class [DigiWXDriver] on the stanza's keywords. *)
Definition construct (stn_dict : dict) : Py nat :=
  (self <- new KDriver ;;
   __init__ self stn_dict ;;;
   ret self)%py.

(** def closePort(self) *)
Definition closePort (self : nat) : Py unit :=
  (s <- getattr self "_station" ;;
   match s with
   | VRef a => DigiWXStation.close a
   | _ => raise (AttributeError "close")
   end)%py.

Definition hardware_name : string := "DigiWX".

(** [time.time()] rounded as the packet has it. *)
Definition timestamp : Py value := fun st => (Ok (VInt (now st)), st).

(** def _data_to_packet(self, data): the dict display's items evaluated in
    source order, then the carried rain total updated. *)
Definition _data_to_packet (self : nat) (data : dict) : Py dict :=
  (dateTime <- timestamp ;;
   let usUnits := VInt weewx_US in
   let windDir := dict_get data "wind_dir" in
   let windSpeed := dict_get data "wind_speed" in
   let inTemp := dict_get data "temperature_in" in
   let outTemp := dict_get data "temperature_out" in
   let outHumidity := dict_get data "humidity" in
   let pressure := dict_get data "pressure" in
   rain_total <- lift (subscript data "rain_total") ;;
   last_rain <- getattr self "last_rain" ;;
   rain <- calculate_rain rain_total last_rain ;;
   let pkt : dict :=
     <["dateTime" := dateTime]>
     (<["usUnits" := usUnits]>
     (<["windDir" := windDir]>
     (<["windSpeed" := windSpeed]>
     (<["inTemp" := inTemp]>
     (<["outTemp" := outTemp]>
     (<["outHumidity" := outHumidity]>
     (<["pressure" := pressure]>
     (<["rain" := rain]> ∅)))))))) in
   rt <- lift (subscript data "rain_total") ;;
   setattr self "last_rain" rt ;;;
   ret pkt)%py.

(** [str(data)] of the debug entry for a parsed record: the text of a dict
    is the interpreter's business. *)
Variable repr_dict : dict -> string.

(** def genLoopPackets(self): the generator run up to its first yield.
    [Some packet] is the packet yielded; [None] says that [fuel] turns of
    [while True] went by without a yield. *)
Fixpoint genLoopPackets (fuel : nat) (self : nat) : Py (option dict) :=
  match fuel with
  | O => ret None
  | S fuel' =>
      (station <- getattr self "_station" ;;
       raw <- match station with
              | VRef a => DigiWXStation.get_current a
              | _ => raise (AttributeError "get_current")
              end ;;
       match raw with
       | EmptyString => genLoopPackets fuel' self
       | _ =>
           logdbg ("raw data: " ++ raw)%string ;;;
           data <- lift (DigiWXStation.parse_current raw) ;;
           logdbg ("parsed data: " ++ repr_dict data)%string ;;;
           packet <- _data_to_packet self data ;;
           ret (Some packet)
       end)%py
  end.

End Adapter.

End DigiWXDriver.

(** def loader(config_dict, _): the driver built from the stanza of the
    configuration that bears the driver's name. *)
Definition loader (config_dict : gmap string dict) : Py nat :=
  match config_dict !! DRIVER_NAME with
  | Some stn_dict => DigiWXDriver.construct stn_dict
  | None => raise (KeyError DRIVER_NAME)
  end.

(* ===================================================================== *)
(*  Properties                                                           *)
(* ===================================================================== *)

Import DigiWXStation.

(* --------------------------------------------------------------------- *)
(* The consumed fields of a record                                       *)
(* --------------------------------------------------------------------- *)

(** The six items of parse_current's dict display. *)
Inductive field :=
| Temperature | Dewpoint | Humidity | WindDir | WindSpeed | Pressure.

Definition field_key (f : field) : string :=
  match f with
  | Temperature => "temperature"
  | Dewpoint => "dewpoint"
  | Humidity => "humidity"
  | WindDir => "wind_dir"
  | WindSpeed => "wind_speed"
  | Pressure => "pressure"
  end.

Definition field_index (f : field) : nat :=
  match f with
  | Temperature => 1
  | Dewpoint => 21
  | Humidity => 3
  | WindDir => 4
  | WindSpeed => 5
  | Pressure => 8
  end.

(** The numeric parse of a field's token: [int] for all but the pressure,
    which is a [float]. *)
Definition numeric_parse (f : field) (tok : string) : outcome value :=
  match f with
  | Pressure => (x <~ py_float tok ;; Ok (VFloat x))%outcome
  | _ => (z <~ py_int tok ;; Ok (VInt z))%outcome
  end.

(** What a field holds for a token: the number, or None. *)
Definition field_value (f : field) (tok : string) : value :=
  match numeric_parse f tok with
  | Ok v => v
  | Raise _ => VNone
  end.

(** The record built from the six tokens. *)
Definition record (t1 t21 t3 t4 t5 t8 : string) : dict :=
  <["temperature" := field_value Temperature t1]>
  (<["dewpoint" := field_value Dewpoint t21]>
  (<["humidity" := field_value Humidity t3]>
  (<["wind_dir" := field_value WindDir t4]>
  (<["wind_speed" := field_value WindSpeed t5]>
  (<["pressure" := field_value Pressure t8]> ∅))))).

(** An upper or lower case ASCII letter. *)
Definition is_alpha (c : ascii) : bool :=
  let n := nat_of_ascii c in
  ((Nat.leb 65 n && Nat.leb n 90) || (Nat.leb 97 n && Nat.leb n 122))%bool.

(** The hemisphere token of the documented format: one letter. *)
Definition direction_letter (tok : string) : Prop :=
  exists c, tok = String c EmptyString /\ is_alpha c = true.

(** The documented wire format, as far as the parser can tell: 53 tokens,
    the longitude's hemisphere letter at index 21. *)
Definition documented_format (s : string) : Prop :=
  length (str_split s) = 53%nat /\
  exists tok, str_split s !! 21%nat = Some tok /\ direction_letter tok.

(** The second sample line of the module's documentation. *)
Definition sample_line : string :=
  "DW,-004,-013,053,290,000,999,999,30.07,+99999,+04200,004,000,001,000,000,44,04.22,N,068,49.10,W,ME55 ,VINALHAVEN,122.7000,00,U,000,999,999,+024,+009,10,NA,NA,000000,159,01024,00,0,99999,99999,99999,0,CLR,999,CLR,999,CLR,999,CLR,999,77".

(** The opening of that line up to the pressure, its comma included. *)
Definition sample_prefix : string :=
  "DW,-004,-013,053,290,000,999,999,30.07,".

(** The binary64 float that the literal 30.07 denotes. *)
Definition float_30_07 : spec_float :=
  S754_finite false 8463952549689426 (-48).

(** The token a field is read from, among the six. *)
Definition token_of (f : field) (t1 t21 t3 t4 t5 t8 : string) : string :=
  match f with
  | Temperature => t1
  | Dewpoint => t21
  | Humidity => t3
  | WindDir => t4
  | WindSpeed => t5
  | Pressure => t8
  end.

(* --------------------------------------------------------------------- *)
(* States and stations for stating the link manager's properties         *)
(* --------------------------------------------------------------------- *)

(** The station at [self] has the attribute [name], bound to [v]. *)
Definition has_attr (st : state) (self : nat) (name : string) (v : value) : Prop :=
  exists o, heap st !! self = Some o /\ attrs o !! name = Some v.

(** A station as __init__ means to leave it, were [max_tries] and
    [retry_wait] bound: [n] tries, [w] seconds between them, the serial
    port in [sp]. *)
Definition station_object (n w : Z) (sp : value) : object :=
  mkObject KStation
    (<["port" := VStr DEFAULT_PORT]>
     (<["baudrate" := VInt 19200]>
     (<["timeout" := VInt 3]>
     (<["max_tries" := VInt n]>
     (<["retry_wait" := VInt w]>
     (<["serial_port" := sp]> ∅)))))).

(** A state with one station, at address 1, of 3 tries 5 seconds apart,
    its port open, and the line about to behave as [f]. *)
Definition demo_state (f : list read_event) : state :=
  mkState {[ 1%nat := station_object 3 5 (VSerial DEFAULT_PORT) ]}
          [] [] f 0 [DEFAULT_PORT] [DEFAULT_PORT] 1700000000.

(** The same station, its port closed. *)
Definition closed_state : state :=
  mkState {[ 1%nat := station_object 3 5 VNone ]}
          [] [] [] 0 [DEFAULT_PORT] [] 1700000000.

(** The closed station where no device can be opened. *)
Definition offline_state : state :=
  mkState {[ 1%nat := station_object 3 5 VNone ]}
          [] [] [] 0 [] [] 1700000000.

(** A state with no object at all. *)
Definition empty_state : state :=
  mkState ∅ [] [] [] 0 [DEFAULT_PORT] [] 1700000000.

Definition unplugged : read_event :=
  Fault (SerialException "device disconnected").

(** The state after a failed attempt, number [ntries] + 1 of [n], that
    raised [e]: the event consumed, the failure logged, the delay slept. *)
Definition after_failure (ntries n w : Z) (e : exn) (rest : list read_event)
    (st : state) : state :=
  set_naps (naps st ++ [VInt w])
    (set_log (log st ++ [(INFO, ("Failed attempt " ++ str_of_Z (ntries + 1)
                                 ++ " of " ++ str_of_Z n
                                 ++ " to get readings: " ++ exn_str e)%string)])
       (set_feed rest st)).

(** The state after a read that handed over [buf]. *)
Definition after_read (buf : string) (rest : list read_event) (st : state) : state :=
  set_log (log st ++ [(DEBUG, ("station said: "
                               ++ join_sp (map hex2 (chars buf)))%string)])
    (set_feed rest st).

(* --------------------------------------------------------------------- *)
(* The with statement, and notions for the further properties            *)
(* --------------------------------------------------------------------- *)


(** How many commas a line has. *)
Fixpoint count_commas (s : string) : nat :=
  match s with
  | EmptyString => 0
  | String c r => if Ascii.eqb c comma then S (count_commas r) else count_commas r
  end.

(** [','.join(l)] *)
Fixpoint join_comma (l : list string) : string :=
  match l with
  | [] => EmptyString
  | [x] => x
  | x :: r => (x ++ String comma (join_comma r))%string
  end.

(** A string of decimal digits, and the number it writes. *)
Fixpoint all_digits (s : string) : bool :=
  match s with
  | EmptyString => true
  | String c r => (is_digit c && all_digits r)%bool
  end.

Definition decimal_value (s : string) : Z :=
  fold_left (fun acc c => 10 * acc + digit_val c) (chars s) 0.

Definition first_char (s : string) : option ascii :=
  match s with
  | EmptyString => None
  | String c _ => Some c
  end.

Fixpoint last_char (s : string) : option ascii :=
  match s with
  | EmptyString => None
  | String c EmptyString => Some c
  | String _ r => last_char r
  end.

(** From [st] to [st'] nothing happened but at most [r] reads of the line
    and at most [s] sleeps: the objects, the devices and the clock are the
    same, the log and the sleeps were only added to, and the line's coming
    events are the earlier ones less one per read. *)
Definition grows (r s : nat) (st st' : state) : Prop :=
  heap st' = heap st /\ devices st' = devices st /\
  held st' = held st /\ now st' = now st /\
  (exists l, log st' = log st ++ l) /\
  (exists n, naps st' = naps st ++ n /\ (length n <= s)%nat) /\
  (exists k, reads st' = (reads st + k)%nat /\ (k <= r)%nat /\
             feed st' = drop k (feed st)).

(** The code [m] does no more than [r] reads and [s] sleeps, from any
    state, whether it returns or raises. *)
Definition within {A} (r s : nat) (m : Py A) : Prop :=
  forall st, grows r s st (snd (m st)).

(** A driver as its __init__ means to leave it, its station at address 1,
    the last rain total [last]. *)
Definition driver_object (last : value) : object :=
  mkObject KDriver
    (<["_model" := VStr "WRL"]>
     (<["last_rain" := last]>
     (<["_station" := VRef 1]> ∅))).

(** A state with an open station at address 1 and its driver at address
    2, the line about to behave as [f]. *)
Definition driver_state (last : value) (f : list read_event) : state :=
  mkState (<[2%nat := driver_object last]>
           {[ 1%nat := station_object 3 5 (VSerial DEFAULT_PORT) ]})
          [] [] f 0 [DEFAULT_PORT] [DEFAULT_PORT] 1700000000.

(** A rain helper on integer totals, for the examples: the increase of
    the total, None when there is no earlier total or the total fell. *)
Definition rain_delta (newtotal oldtotal : value) : Py value :=
  ret (match newtotal, oldtotal with
       | VInt a, VInt b => if (b <=? a)%Z then VInt (a - b) else VNone
       | _, _ => VNone
       end).

(** The keys of an observation packet. *)
Definition packet_keys : list string :=
  [ "dateTime"; "usUnits"; "windDir"; "windSpeed"; "inTemp"; "outTemp";
    "outHumidity"; "pressure"; "rain" ].

(** The levels of the log entries. *)
Definition levels (st : state) : list level := map fst (log st).

(* --------------------------------------------------------------------- *)
(* Lemmas on the primitives                                              *)
(* --------------------------------------------------------------------- *)

Ltac case_numeric E :=
  match goal with
  | |- context [py_int ?t] => destruct (py_int t) eqn:E
  | |- context [py_float ?t] => destruct (py_float t) eqn:E
  end.

Lemma str_split_nonempty s : str_split s <> [].
Proof.
  destruct s as [|c r]; simpl; [discriminate|].
  destruct (Ascii.eqb c comma); [discriminate|].
  destruct (str_split r); discriminate.
Qed.

Lemma str_split_app a b :
  str_split (a ++ String comma b)%string = str_split a ++ str_split b.
Proof.
  induction a as [|c r IH]; simpl.
  - reflexivity.
  - destruct (Ascii.eqb c comma).
    + now rewrite IH.
    + rewrite IH. pose proof (str_split_nonempty r) as Hne.
      destruct (str_split r); [contradiction|reflexivity].
Qed.

Lemma py_int_raises s e : py_int s = Raise e -> e = ValueError.
Proof.
  unfold py_int. destruct (sign (strip s)) as [neg body].
  destruct (digits 0 0 body) as [[v n] rest].
  destruct n; [congruence|]. destruct rest; congruence.
Qed.

Lemma py_float_raises s e : py_float s = Raise e -> e = ValueError.
Proof.
  unfold py_float. destruct (sign (strip s)) as [neg body].
  destruct (_ || _)%bool; [discriminate|].
  destruct (String.eqb _ _); [discriminate|].
  destruct (digits 0 0 body) as [[vi ni] r1].
  destruct (match r1 with String "."%char r => digits vi 0 r | _ => (vi, 0%nat, r1) end)
    as [[vf nf] r2].
  destruct (ni + nf)%nat; [congruence|].
  destruct (exponent r2) as [[ex rest]|]; [|congruence].
  destruct rest; congruence.
Qed.

Lemma parse_int_field f tok :
  f <> Pressure -> parse_int tok = Ok (field_value f tok).
Proof.
  intros Hf. unfold parse_int, field_value, numeric_parse.
  destruct f; try contradiction; simpl;
    destruct (py_int tok) as [z|e] eqn:E; simpl; try reflexivity;
    apply py_int_raises in E; subst e; reflexivity.
Qed.

Lemma parse_float_field tok :
  parse_float tok = Ok (field_value Pressure tok).
Proof.
  unfold parse_float, field_value, numeric_parse.
  destruct (py_float tok) as [z|e] eqn:E; simpl; try reflexivity.
  apply py_float_raises in E; subst e; reflexivity.
Qed.

(** The two static helpers never raise. *)
Lemma parse_int_total tok : exists v, parse_int tok = Ok v.
Proof. exists (field_value Temperature tok). now apply parse_int_field. Qed.

Lemma parse_float_total tok : exists v, parse_float tok = Ok v.
Proof. eexists. apply parse_float_field. Qed.

(** parse_current on a line whose six consumed tokens exist. *)
Lemma parse_current_tokens s t1 t21 t3 t4 t5 t8 :
  str_split s !! 1%nat = Some t1 -> str_split s !! 21%nat = Some t21 ->
  str_split s !! 3%nat = Some t3 -> str_split s !! 4%nat = Some t4 ->
  str_split s !! 5%nat = Some t5 -> str_split s !! 8%nat = Some t8 ->
  parse_current s = Ok (record t1 t21 t3 t4 t5 t8).
Proof.
  intros H1 H21 H3 H4 H5 H8. unfold parse_current, getitem.
  rewrite H1, H21, H3, H4, H5, H8. simpl.
  rewrite !(parse_int_field Temperature) by discriminate.
  simpl. rewrite (parse_float_field t8). reflexivity.
Qed.

Lemma parse_current_inv s data :
  parse_current s = Ok data ->
  exists t1 t21 t3 t4 t5 t8,
    str_split s !! 1%nat = Some t1 /\ str_split s !! 21%nat = Some t21 /\
    str_split s !! 3%nat = Some t3 /\ str_split s !! 4%nat = Some t4 /\
    str_split s !! 5%nat = Some t5 /\ str_split s !! 8%nat = Some t8 /\
    data = record t1 t21 t3 t4 t5 t8.
Proof.
  intros H.
  destruct (str_split s !! 21%nat) as [t21|] eqn:E21.
  - assert (Hlen : (21 < length (str_split s))%nat)
      by (apply lookup_lt_is_Some; eauto).
    destruct (lookup_lt_is_Some_2 (str_split s) 1) as [t1 E1]; [lia|].
    destruct (lookup_lt_is_Some_2 (str_split s) 3) as [t3 E3]; [lia|].
    destruct (lookup_lt_is_Some_2 (str_split s) 4) as [t4 E4]; [lia|].
    destruct (lookup_lt_is_Some_2 (str_split s) 5) as [t5 E5]; [lia|].
    destruct (lookup_lt_is_Some_2 (str_split s) 8) as [t8 E8]; [lia|].
    exists t1, t21, t3, t4, t5, t8.
    rewrite (parse_current_tokens s t1 t21 t3 t4 t5 t8) in H by assumption.
    injection H as <-. repeat split; assumption.
  - exfalso. unfold parse_current, getitem in H. rewrite E21 in H.
    destruct (str_split s !! 1%nat) as [t1|]; simpl in H; [|discriminate].
    rewrite (parse_int_field Temperature) in H by discriminate.
    simpl in H. discriminate.
Qed.

(** A line with fewer than 22 tokens: the subscript [parts[1]] or
    [parts[21]] raises. *)
Lemma parse_current_short s :
  (length (str_split s) < 22)%nat -> parse_current s = Raise IndexError.
Proof.
  intros Hlen. unfold parse_current, getitem.
  rewrite (lookup_ge_None_2 (str_split s) 21) by lia.
  destruct (str_split s !! 1%nat) as [t1|]; simpl; [|reflexivity].
  rewrite (parse_int_field Temperature) by discriminate. reflexivity.
Qed.

Lemma parse_current_long s :
  (22 <= length (str_split s))%nat ->
  exists t1 t21 t3 t4 t5 t8,
    str_split s !! 1%nat = Some t1 /\ str_split s !! 21%nat = Some t21 /\
    str_split s !! 3%nat = Some t3 /\ str_split s !! 4%nat = Some t4 /\
    str_split s !! 5%nat = Some t5 /\ str_split s !! 8%nat = Some t8 /\
    parse_current s = Ok (record t1 t21 t3 t4 t5 t8).
Proof.
  intros Hlen.
  destruct (lookup_lt_is_Some_2 (str_split s) 1) as [t1 E1]; [lia|].
  destruct (lookup_lt_is_Some_2 (str_split s) 21) as [t21 E21]; [lia|].
  destruct (lookup_lt_is_Some_2 (str_split s) 3) as [t3 E3]; [lia|].
  destruct (lookup_lt_is_Some_2 (str_split s) 4) as [t4 E4]; [lia|].
  destruct (lookup_lt_is_Some_2 (str_split s) 5) as [t5 E5]; [lia|].
  destruct (lookup_lt_is_Some_2 (str_split s) 8) as [t8 E8]; [lia|].
  exists t1, t21, t3, t4, t5, t8. repeat split; try assumption.
  now apply parse_current_tokens.
Qed.

Lemma record_lookup f t1 t21 t3 t4 t5 t8 :
  record t1 t21 t3 t4 t5 t8 !! field_key f
  = Some (field_value f (token_of f t1 t21 t3 t4 t5 t8)).
Proof. destruct f; reflexivity. Qed.

(** A record has the six keys and no other. *)
Lemma record_keys t1 t21 t3 t4 t5 t8 k :
  is_Some (record t1 t21 t3 t4 t5 t8 !! k) <-> exists f, k = field_key f.
Proof.
  split.
  - unfold record. intros [v Hv].
    repeat (apply lookup_insert_Some in Hv as [[<- _]|[_ Hv]];
            [match goal with
             | |- exists f, ?key = _ =>
                 first [ now exists Temperature | now exists Dewpoint
                       | now exists Humidity | now exists WindDir
                       | now exists WindSpeed | now exists Pressure ]
             end|]).
    rewrite lookup_empty in Hv. discriminate.
  - intros [f ->]. rewrite record_lookup. eauto.
Qed.

Lemma numeric_parse_number f tok v :
  numeric_parse f tok = Ok v -> v <> VNone.
Proof.
  destruct f; simpl; case_numeric E; simpl; intros H; inversion H; discriminate.
Qed.

Lemma numeric_parse_raises f tok e :
  numeric_parse f tok = Raise e -> e = ValueError.
Proof.
  destruct f; simpl; case_numeric E; simpl; intros H; inversion H; subst;
    eauto using py_int_raises, py_float_raises.
Qed.

Lemma field_value_none_iff f tok :
  field_value f tok = VNone <-> numeric_parse f tok = Raise ValueError.
Proof.
  unfold field_value. split.
  - destruct (numeric_parse f tok) as [v|e] eqn:E; intros Hv.
    + subst v. now apply numeric_parse_number in E.
    + f_equal. eauto using numeric_parse_raises.
  - now intros ->.
Qed.

Lemma field_value_ok f tok v :
  numeric_parse f tok = Ok v -> field_value f tok = v.
Proof. unfold field_value. now intros ->. Qed.

Lemma lookup_token_of s f tok t1 t21 t3 t4 t5 t8 :
  str_split s !! 1%nat = Some t1 -> str_split s !! 21%nat = Some t21 ->
  str_split s !! 3%nat = Some t3 -> str_split s !! 4%nat = Some t4 ->
  str_split s !! 5%nat = Some t5 -> str_split s !! 8%nat = Some t8 ->
  str_split s !! field_index f = Some tok ->
  token_of f t1 t21 t3 t4 t5 t8 = tok.
Proof. destruct f; simpl; congruence. Qed.

Lemma py_int_letter c :
  is_alpha c = true -> py_int (String c EmptyString) = Raise ValueError.
Proof.
  intros H. destruct c as [[] [] [] [] [] [] [] []];
    vm_compute in H |- *; congruence.
Qed.

Lemma py_float_30_07 : py_float "30.07" = Ok float_30_07.
Proof. vm_compute. reflexivity. Qed.

(** No binary64 float is nearer to 30.07 than [float_30_07]: the distance
    is at most half a unit in the last place, 2^-49. *)
Lemma float_30_07_nearest :
  2 * Z.abs (8463952549689426 * 100 - 3007 * 2 ^ 48) <= 100.
Proof. vm_compute. discriminate. Qed.

(* --------------------------------------------------------------------- *)
(* The record parser                                                     *)
(* --------------------------------------------------------------------- *)

(** C1 (as stated, refuted): on a line of eight tokens parse_current
    returns no record; the subscript [parts[21]] raises IndexError. *)
Lemma parse_current_short_line_raises :
  parse_current "DW,-004,-013,053,290,000,999,999" = Raise IndexError /\
  ~ (exists data, parse_current "DW,-004,-013,053,290,000,999,999" = Ok data).
Proof.
  assert (H : parse_current "DW,-004,-013,053,290,000,999,999" = Raise IndexError)
    by (apply parse_current_short; vm_compute; lia).
  split; [exact H|]. intros [data Hd]. rewrite H in Hd. discriminate.
Qed.

(** C1 (amended): parse_current returns a record, without raising, for
    every line of at least 22 comma-separated tokens, each consumed field
    holding the numeric parse of its token, or None when that parse
    fails; for a line of fewer than 22 tokens it raises IndexError. *)
Theorem parse_current_total_from_22_tokens s :
  ((22 <= length (str_split s))%nat ->
   exists data, parse_current s = Ok data /\
     forall f tok, str_split s !! field_index f = Some tok ->
       data !! field_key f = Some (field_value f tok)) /\
  ((length (str_split s) < 22)%nat -> parse_current s = Raise IndexError).
Proof.
  split; [|apply parse_current_short].
  intros Hlen.
  destruct (parse_current_long s Hlen)
    as (t1 & t21 & t3 & t4 & t5 & t8 & E1 & E21 & E3 & E4 & E5 & E8 & Hp).
  eexists. split; [exact Hp|]. intros f tok Hf.
  rewrite record_lookup. do 2 f_equal. eauto using lookup_token_of.
Qed.

Lemma parse_current_total_from_22_tokens_witness :
  (exists data, parse_current sample_line = Ok data /\
     forall f tok, str_split sample_line !! field_index f = Some tok ->
       data !! field_key f = Some (field_value f tok)) /\
  parse_current "DW,-004" = Raise IndexError.
Proof.
  split.
  - apply (proj1 (parse_current_total_from_22_tokens sample_line)).
    vm_compute. lia.
  - apply (proj2 (parse_current_total_from_22_tokens "DW,-004")).
    vm_compute. lia.
Defined.

(** C6: on a line of at least 22 tokens, a consumed field is None exactly
    when the numeric parse of its token fails ([int] for temperature,
    dewpoint, humidity, wind direction and wind speed, [float] for the
    pressure), it holds the parsed number otherwise, and what it holds
    depends on its own token alone: any other parsed line with the same
    token at that index has the same value in that field. *)
Theorem field_absent_iff_parse_fails s :
  (22 <= length (str_split s))%nat ->
  exists data, parse_current s = Ok data /\
    (forall f tok, str_split s !! field_index f = Some tok ->
       (data !! field_key f = Some VNone <-> numeric_parse f tok = Raise ValueError)
       /\ (forall v, numeric_parse f tok = Ok v -> data !! field_key f = Some v)) /\
    (forall s' data' f,
       parse_current s' = Ok data' ->
       str_split s' !! field_index f = str_split s !! field_index f ->
       data' !! field_key f = data !! field_key f).
Proof.
  intros Hlen.
  destruct (parse_current_long s Hlen)
    as (t1 & t21 & t3 & t4 & t5 & t8 & E1 & E21 & E3 & E4 & E5 & E8 & Hp).
  eexists. split; [exact Hp|]. split.
  - intros f tok Hf. rewrite record_lookup.
    rewrite (lookup_token_of s f tok t1 t21 t3 t4 t5 t8) by assumption.
    split.
    + rewrite <- field_value_none_iff. split; congruence.
    + intros v Hv. f_equal. now apply field_value_ok.
  - intros s' data' f Hp' Hf.
    apply parse_current_inv in Hp'
      as (u1 & u21 & u3 & u4 & u5 & u8 & F1 & F21 & F3 & F4 & F5 & F8 & ->).
    rewrite !record_lookup. do 2 f_equal.
    destruct f; simpl in *; congruence.
Qed.

Lemma field_absent_iff_parse_fails_witness :
  exists data, parse_current sample_line = Ok data /\
    (forall f tok, str_split sample_line !! field_index f = Some tok ->
       (data !! field_key f = Some VNone <-> numeric_parse f tok = Raise ValueError)
       /\ (forall v, numeric_parse f tok = Ok v -> data !! field_key f = Some v)) /\
    (forall s' data' f,
       parse_current s' = Ok data' ->
       str_split s' !! field_index f = str_split sample_line !! field_index f ->
       data' !! field_key f = data !! field_key f).
Proof.
  apply (field_absent_iff_parse_fails sample_line). vm_compute. lia.
Defined.

(** C7: on every line of the documented 53-field format, where index 21
    holds the longitude's hemisphere letter, the dewpoint of the parsed
    record is None, and the token at index 2, where the hardware sends
    the dewpoint, is never read: a line that differs at index 2 alone
    parses to the same record. *)
Theorem dewpoint_absent_on_documented_format s :
  documented_format s ->
  exists data, parse_current s = Ok data /\
    data !! "dewpoint" = Some VNone /\
    forall s', (forall i, i <> 2%nat -> str_split s' !! i = str_split s !! i) ->
               parse_current s' = Ok data.
Proof.
  intros [Hlen (tok & Htok & c & -> & Hc)].
  destruct (parse_current_long s)
    as (t1 & t21 & t3 & t4 & t5 & t8 & E1 & E21 & E3 & E4 & E5 & E8 & Hp);
    [lia|].
  eexists. split; [exact Hp|]. split.
  - rewrite (record_lookup Dewpoint). simpl. f_equal.
    assert (t21 = String c EmptyString) as -> by congruence.
    unfold field_value, numeric_parse. now rewrite py_int_letter.
  - intros s' Hs'. apply parse_current_tokens; rewrite Hs'; auto.
Qed.

Lemma dewpoint_absent_on_documented_format_witness :
  exists data, parse_current sample_line = Ok data /\
    data !! "dewpoint" = Some VNone /\
    forall s', (forall i, i <> 2%nat ->
                          str_split s' !! i = str_split sample_line !! i) ->
               parse_current s' = Ok data.
Proof.
  apply (dewpoint_absent_on_documented_format sample_line).
  split; [reflexivity|].
  exists "W". split; [reflexivity|]. exists "W"%char. split; reflexivity.
Defined.

(** C8: a line that opens with "DW,-004,-013,053,290,000,999,999,30.07,"
    and goes on with at least 13 more tokens parses to temperature -4,
    humidity 53, wind direction 290, wind speed 0, pressure 30.07 (the
    binary64 float of that literal), and a dewpoint that is the integer
    parse, or None, of the token at index 21. *)
Theorem sample_line_fields tail :
  (13 <= length (str_split tail))%nat ->
  exists data tok,
    str_split (sample_prefix ++ tail)%string !! 21%nat = Some tok /\
    parse_current (sample_prefix ++ tail)%string = Ok data /\
    data !! "temperature" = Some (VInt (-4)) /\
    data !! "humidity" = Some (VInt 53) /\
    data !! "wind_dir" = Some (VInt 290) /\
    data !! "wind_speed" = Some (VInt 0) /\
    data !! "pressure" = Some (VFloat float_30_07) /\
    exists dew, parse_int tok = Ok dew /\ data !! "dewpoint" = Some dew.
Proof.
  intros Hlen.
  destruct (lookup_lt_is_Some_2 (str_split tail) 12) as [tok Htok]; [lia|].
  assert (Hs : str_split (sample_prefix ++ tail)%string
               = ["DW"; "-004"; "-013"; "053"; "290"; "000"; "999"; "999"; "30.07"]
                 ++ str_split tail).
  { change (sample_prefix ++ tail)%string
      with ("DW,-004,-013,053,290,000,999,999,30.07" ++ String comma tail)%string.
    rewrite str_split_app. reflexivity. }
  exists (record "-004" tok "053" "290" "000" "30.07"), tok.
  split; [rewrite Hs; exact Htok|].
  split; [apply parse_current_tokens; rewrite Hs; try reflexivity; exact Htok|].
  repeat (split; [reflexivity|]).
  exists (field_value Dewpoint tok). split.
  - now apply parse_int_field.
  - apply (record_lookup Dewpoint).
Qed.

Lemma sample_line_fields_witness :
  exists data tok,
    str_split sample_line !! 21%nat = Some tok /\
    parse_current sample_line = Ok data /\
    data !! "temperature" = Some (VInt (-4)) /\
    data !! "humidity" = Some (VInt 53) /\
    data !! "wind_dir" = Some (VInt 290) /\
    data !! "wind_speed" = Some (VInt 0) /\
    data !! "pressure" = Some (VFloat float_30_07) /\
    exists dew, parse_int tok = Ok dew /\ data !! "dewpoint" = Some dew.
Proof.
  apply (sample_line_fields
    "+99999,+04200,004,000,001,000,000,44,04.22,N,068,49.10,W,ME55 ,VINALHAVEN,122.7000,00,U,000,999,999,+024,+009,10,NA,NA,000000,159,01024,00,0,99999,99999,99999,0,CLR,999,CLR,999,CLR,999,CLR,999,77").
  vm_compute. lia.
Defined.

(* --------------------------------------------------------------------- *)
(* Constructors                                                          *)
(* --------------------------------------------------------------------- *)

Lemma load_global_max_tries st :
  load_global "max_tries" st = (Raise (NameError "max_tries"), st).
Proof. reflexivity. Qed.

Lemma load_global_retry_wait st :
  load_global "retry_wait" st = (Raise (NameError "retry_wait"), st).
Proof. reflexivity. Qed.

Lemma load_global_cmd st :
  load_global "cmd" st = (Raise (NameError "cmd"), st).
Proof. reflexivity. Qed.

Lemma setattr_some self name v st o :
  heap st !! self = Some o ->
  setattr self name v st
  = (Ok tt, set_heap (<[self := mkObject (cls o) (<[name := v]> (attrs o))]> (heap st)) st).
Proof. intros H. unfold setattr. now rewrite H. Qed.

Lemma getattr_some self name v st o :
  heap st !! self = Some o -> attrs o !! name = Some v ->
  getattr self name st = (Ok v, st).
Proof. intros H Hv. unfold getattr. now rewrite H, Hv. Qed.

Lemma init_raises self port st o :
  heap st !! self = Some o ->
  fst (__init__ self port st) = Raise (NameError "max_tries").
Proof.
  intros H. unfold __init__, bind.
  rewrite (setattr_some _ _ _ _ _ H).
  erewrite setattr_some by (simpl; apply lookup_insert_eq).
  erewrite setattr_some by (simpl; apply lookup_insert_eq).
  reflexivity.
Qed.

Lemma construct_raises port st :
  fst (DigiWXStation.construct port st) = Raise (NameError "max_tries").
Proof.
  unfold construct, bind, new.
  pose proof (init_raises (fresh_addr (heap st)) port
    (set_heap (<[fresh_addr (heap st) := mkObject KStation ∅]> (heap st)) st)
    (mkObject KStation ∅)) as H.
  destruct (__init__ _ _ _) as [[u|e] st'].
  - simpl in H. specialize (H (lookup_insert_eq _ _ _)). discriminate.
  - simpl in *. specialize (H (lookup_insert_eq _ _ _)).
    injection H as ->. reflexivity.
Qed.

Lemma driver_construct_raises stn_dict st :
  fst (DigiWXDriver.construct stn_dict st) = Raise (NameError "max_tries").
Proof.
  unfold DigiWXDriver.construct, bind, new, DigiWXDriver.__init__, bind.
  unfold loginf, log_at.
  erewrite setattr_some by (simpl; apply lookup_insert_eq).
  erewrite setattr_some by (simpl; apply lookup_insert_eq).
  match goal with
  | |- context [DigiWXStation.construct ?p ?s] =>
      pose proof (construct_raises p s) as H;
      destruct (DigiWXStation.construct p s) as [[a|e] st']
  end; simpl in H; [discriminate|]. simpl. exact H.
Qed.

(** C2: the call DigiWXStation(port) never succeeds: whatever the port and
    the state, it raises NameError for [max_tries], the first of the two
    unbound names that __init__ reads; and so do the call of DigiWXDriver,
    whose __init__ builds a station, and a loader given a DigiWX stanza. *)
Theorem station_construction_raises_NameError port st :
  fst (DigiWXStation.construct port st) = Raise (NameError "max_tries") /\
  load_global "max_tries" st = (Raise (NameError "max_tries"), st) /\
  load_global "retry_wait" st = (Raise (NameError "retry_wait"), st) /\
  (forall stn_dict,
     fst (DigiWXDriver.construct stn_dict st) = Raise (NameError "max_tries")) /\
  (forall config_dict a, fst (loader config_dict st) <> Ok a).
Proof.
  split; [apply construct_raises|]. do 2 (split; [reflexivity|]).
  split; [intros; apply driver_construct_raises|].
  intros config_dict a. unfold loader.
  destruct (config_dict !! DRIVER_NAME) as [stn_dict|].
  - rewrite driver_construct_raises. discriminate.
  - discriminate.
Qed.

(* --------------------------------------------------------------------- *)
(* The retry loop                                                        *)
(* --------------------------------------------------------------------- *)

(** The else clause of the loop never raises RetriesExceeded and logs
    nothing: reading [self._max_tries] raises AttributeError, and were
    that attribute set, reading [cmd] would raise NameError. *)
Lemma retries_exceeded_raises self st :
  exists e, retries_exceeded self st = (Raise e, st) /\
            (e = AttributeError "_max_tries" \/ e = NameError "cmd").
Proof.
  unfold retries_exceeded, bind, getattr.
  destruct (heap st !! self) as [o|]; [|eauto].
  destruct (attrs o !! "_max_tries") as [v|].
  - rewrite load_global_cmd. eauto.
  - destruct o as [[] a]; simpl; eauto.
Qed.

Lemma get_data_fault self st o dev e rest :
  heap st !! self = Some o ->
  attrs o !! "serial_port" = Some (VSerial dev) ->
  feed st = Fault e :: rest ->
  get_data self st = (Raise e, set_feed rest st).
Proof.
  intros Ho Hsp Hf. unfold get_data, bind.
  rewrite (getattr_some _ _ _ _ _ Ho Hsp). unfold serial_readline.
  now rewrite Hf.
Qed.

Lemma get_data_line self st o dev buf rest :
  heap st !! self = Some o ->
  attrs o !! "serial_port" = Some (VSerial dev) ->
  feed st = Line buf :: rest ->
  get_data self st = (Ok (strip buf), after_read buf rest st).
Proof.
  intros Ho Hsp Hf. unfold get_data, bind.
  rewrite (getattr_some _ _ _ _ _ Ho Hsp). unfold serial_readline.
  now rewrite Hf.
Qed.

(** One failed iteration: the fault is caught, logged and slept on, and
    the loop goes on with one iteration less. *)
Lemma retry_loop_fault self ntries todo st o n w dev e rest :
  heap st !! self = Some o ->
  attrs o !! "max_tries" = Some (VInt n) ->
  attrs o !! "retry_wait" = Some (VInt w) -> 0 <= w ->
  attrs o !! "serial_port" = Some (VSerial dev) ->
  feed st = Fault e :: rest -> transport_fault e = true ->
  retry_loop self ntries (S todo) st
  = retry_loop self (ntries + 1) todo (after_failure ntries n w e rest st).
Proof.
  intros Ho Hn Hw Hw0 Hsp Hf He. simpl. unfold try_except.
  rewrite (get_data_fault _ _ _ _ _ _ Ho Hsp Hf), He.
  unfold bind.
  rewrite (getattr_some self "max_tries" (VInt n) (set_feed rest st) o Ho Hn).
  simpl.
  erewrite (getattr_some self "retry_wait") by (simpl; eassumption).
  unfold sleep. destruct (Z.ltb_spec w 0); [lia|]. reflexivity.
Qed.

(** One successful iteration: the stripped line is returned. *)
Lemma retry_loop_line self ntries todo st o dev buf rest :
  heap st !! self = Some o ->
  attrs o !! "serial_port" = Some (VSerial dev) ->
  feed st = Line buf :: rest ->
  retry_loop self ntries (S todo) st = (Ok (strip buf), after_read buf rest st).
Proof.
  intros Ho Hsp Hf. simpl. unfold try_except.
  now rewrite (get_data_line _ _ _ _ _ _ Ho Hsp Hf).
Qed.

(** C3 (the code at the failing input): 3 tries, the line failing 3 times
    with SerialException.  The call raises AttributeError for
    [_max_tries], not RetriesExceeded, and nothing is logged at error
    severity: the three log entries are the INFO entries of the failed
    attempts. *)
Theorem retries_exhausted_raises_AttributeError :
  let r := get_data_with_retry 1 (demo_state [unplugged; unplugged; unplugged]) in
  fst r = Raise (AttributeError "_max_tries") /\
  (forall msg, fst r <> Raise (RetriesExceeded msg)) /\
  map fst (log (snd r)) = [INFO; INFO; INFO].
Proof.
  assert (H : fst (get_data_with_retry 1
                     (demo_state [unplugged; unplugged; unplugged]))
              = Raise (AttributeError "_max_tries")) by (vm_compute; reflexivity).
  cbv zeta. split; [exact H|]. split.
  - intros msg. rewrite H. discriminate.
  - vm_compute. reflexivity.
Qed.

(** C5 (as stated, refuted): 3 tries, the line failing 3 times.  Three
    reads are made and three delays slept, not two. *)
Lemma three_failures_sleep_three_times :
  let r := get_data_with_retry 1 (demo_state [unplugged; unplugged; unplugged]) in
  reads (snd r) = 3%nat /\
  naps (snd r) = [VInt 5; VInt 5; VInt 5] /\
  length (naps (snd r)) <> 2%nat.
Proof. vm_compute. repeat split. discriminate. Qed.

(** C5 (amended): with 3 tries on an open port, if the read fails twice
    with a transport fault and then succeeds, the call returns that read,
    stripped, after exactly 3 reads and exactly 2 delays; if the read
    fails 3 times, the call raises after exactly 3 reads and exactly 3
    delays, one after each failed attempt, the last included. *)
Theorem retry_of_three_attempts self st w dev e1 e2 rest :
  has_attr st self "max_tries" (VInt 3) ->
  has_attr st self "retry_wait" (VInt w) -> 0 <= w ->
  has_attr st self "serial_port" (VSerial dev) ->
  transport_fault e1 = true -> transport_fault e2 = true ->
  (forall buf,
     feed st = Fault e1 :: Fault e2 :: Line buf :: rest ->
     exists st', get_data_with_retry self st = (Ok (strip buf), st') /\
                 reads st' = (reads st + 3)%nat /\
                 naps st' = naps st ++ [VInt w; VInt w] /\
                 feed st' = rest) /\
  (forall e3,
     transport_fault e3 = true ->
     feed st = Fault e1 :: Fault e2 :: Fault e3 :: rest ->
     exists e st', get_data_with_retry self st = (Raise e, st') /\
                   reads st' = (reads st + 3)%nat /\
                   naps st' = naps st ++ [VInt w; VInt w; VInt w] /\
                   feed st' = rest).
Proof.
  intros (o & Ho & Hn) (o' & Ho' & Hw) Hw0 (o'' & Ho'' & Hsp) He1 He2.
  assert (o' = o) as -> by congruence. assert (o'' = o) as -> by congruence.
  assert (Hstart : get_data_with_retry self st = retry_loop self 0 3 st).
  { unfold get_data_with_retry, bind.
    now rewrite (getattr_some _ _ _ _ _ Ho Hn). }
  split.
  - intros buf Hf. eexists. split; [|split; [|split]].
    + rewrite Hstart.
      rewrite (retry_loop_fault _ _ _ _ o 3 w dev e1 _ Ho Hn Hw Hw0 Hsp Hf He1).
      rewrite (retry_loop_fault _ _ _ _ o 3 w dev e2 (Line buf :: rest))
        by (try assumption; reflexivity).
      apply (retry_loop_line _ _ _ _ o dev); try assumption; reflexivity.
    + simpl. lia.
    + simpl. now rewrite <- app_assoc.
    + reflexivity.
  - intros e3 He3 Hf.
    destruct (retries_exceeded_raises self
                (after_failure 2 3 w e3 rest
                   (after_failure 1 3 w e2 (Fault e3 :: rest)
                      (after_failure 0 3 w e1 (Fault e2 :: Fault e3 :: rest) st))))
      as (e & Hex & _).
    exists e. eexists. split; [|split; [|split]].
    + rewrite Hstart.
      rewrite (retry_loop_fault _ _ _ _ o 3 w dev e1 _ Ho Hn Hw Hw0 Hsp Hf He1).
      rewrite (retry_loop_fault _ _ _ _ o 3 w dev e2 (Fault e3 :: rest))
        by (try assumption; reflexivity).
      rewrite (retry_loop_fault _ _ _ _ o 3 w dev e3 rest)
        by (try assumption; reflexivity).
      exact Hex.
    + simpl. lia.
    + simpl. now rewrite <- !app_assoc.
    + reflexivity.
Qed.

Lemma retry_of_three_attempts_witness :
  (exists st',
     get_data_with_retry 1 (demo_state [unplugged; unplugged; Line sample_line])
     = (Ok (strip sample_line), st') /\
     reads st' = 3%nat /\ naps st' = [VInt 5; VInt 5] /\ feed st' = []) /\
  (exists e st',
     get_data_with_retry 1 (demo_state [unplugged; unplugged; unplugged])
     = (Raise e, st') /\
     reads st' = 3%nat /\ naps st' = [VInt 5; VInt 5; VInt 5] /\ feed st' = []).
Proof.
  split.
  - apply (proj1 (retry_of_three_attempts 1
                    (demo_state [unplugged; unplugged; Line sample_line])
                    5 DEFAULT_PORT
                    (SerialException "device disconnected")
                    (SerialException "device disconnected") []
                    (ex_intro _ _ (conj eq_refl eq_refl))
                    (ex_intro _ _ (conj eq_refl eq_refl))
                    ltac:(lia)
                    (ex_intro _ _ (conj eq_refl eq_refl))
                    eq_refl eq_refl) sample_line).
    reflexivity.
  - apply (proj2 (retry_of_three_attempts 1
                    (demo_state [unplugged; unplugged; unplugged])
                    5 DEFAULT_PORT
                    (SerialException "device disconnected")
                    (SerialException "device disconnected") []
                    (ex_intro _ _ (conj eq_refl eq_refl))
                    (ex_intro _ _ (conj eq_refl eq_refl))
                    ltac:(lia)
                    (ex_intro _ _ (conj eq_refl eq_refl))
                    eq_refl eq_refl)
             (SerialException "device disconnected") eq_refl).
    reflexivity.
Defined.

(* --------------------------------------------------------------------- *)
(* The connection's life cycle                                           *)
(* --------------------------------------------------------------------- *)

Lemma close_closed self st :
  has_attr st self "serial_port" VNone -> close self st = (Ok tt, st).
Proof.
  intros (o & Ho & Hsp). unfold close, bind.
  now rewrite (getattr_some _ _ _ _ _ Ho Hsp).
Qed.

(** Inversion of a sequence that returns, and of one that raises. *)
Lemma bind_ok_inv {A B} (m : Py A) (k : A -> Py B) st b st' :
  bind m k st = (Ok b, st') ->
  exists a s1, m st = (Ok a, s1) /\ k a s1 = (Ok b, st').
Proof.
  unfold bind. destruct (m st) as [[a|e] s1]; [eauto|discriminate].
Qed.

Lemma bind_raise_inv {A B} (m : Py A) (k : A -> Py B) st e st' :
  bind m k st = (@Raise B e, st') ->
  m st = (Raise e, st') \/
  exists a s1, m st = (Ok a, s1) /\ k a s1 = (Raise e, st').
Proof.
  unfold bind. destruct (m st) as [[a|e0] s1]; [eauto|].
  intros H; injection H as <- <-. now left.
Qed.

Lemma getattr_state {self name st} r s1 :
  getattr self name st = (r, s1) -> s1 = st.
Proof.
  unfold getattr. destruct (heap st !! self) as [o|]; [|congruence].
  destruct (attrs o !! name); [congruence|].
  destruct (mem name (class_attrs (cls o))); congruence.
Qed.

(** An attribute that no class provides is read from the instance. *)
Lemma getattr_instance self name v st s1 :
  (forall k, mem name (class_attrs k) = false) ->
  getattr self name st = (Ok v, s1) -> has_attr st self name v.
Proof.
  intros Hk. unfold getattr, has_attr.
  destruct (heap st !! self) as [o|]; [|discriminate].
  destruct (attrs o !! name) as [v'|] eqn:Hv.
  - intros H; injection H as <- <-. eauto.
  - rewrite Hk. discriminate.
Qed.

Lemma serial_port_instance k : mem "serial_port" (class_attrs k) = false.
Proof. now destruct k. Qed.

Lemma setattr_ok_has self name v st u st' :
  setattr self name v st = (Ok u, st') -> has_attr st' self name v.
Proof.
  unfold setattr, has_attr. destruct (heap st !! self) as [o|]; [|discriminate].
  intros H; injection H as <- <-. eexists. simpl.
  split; apply lookup_insert_eq.
Qed.

Lemma setattr_raise_state self name v st e st' :
  setattr self name v st = (Raise e, st') -> st' = st.
Proof.
  unfold setattr. destruct (heap st !! self); [discriminate|congruence].
Qed.

Lemma log_at_heap l msg st r s1 :
  log_at l msg st = (r, s1) -> heap s1 = heap st.
Proof. unfold log_at. now intros H; injection H as <- <-. Qed.

Lemma serial_Serial_heap port baudrate timeout st r s1 :
  serial_Serial port baudrate timeout st = (r, s1) -> heap s1 = heap st.
Proof.
  unfold serial_Serial. destruct port; try now (intros H; injection H as <- <-).
  destruct (mem s (devices st)); now intros H; injection H as <- <-.
Qed.

(** A close that returns leaves the port attribute None. *)
Lemma close_ok_closed self st u st' :
  close self st = (Ok u, st') -> has_attr st' self "serial_port" VNone.
Proof.
  unfold close. intros H.
  apply bind_ok_inv in H as (sp & s1 & E1 & H).
  pose proof (getattr_state _ _ E1) as ->.
  destruct sp;
    try (repeat (apply bind_ok_inv in H as (? & ? & _ & H));
         now apply setattr_ok_has in H).
  injection H as <- <-.
  eapply getattr_instance; eauto using serial_port_instance.
Qed.

Lemma close_twice self st :
  (close self ;;; close self)%py st = close self st.
Proof.
  unfold bind at 1. destruct (close self st) as [[[]|e] st'] eqn:E.
  - apply close_closed. eapply close_ok_closed; eauto.
  - reflexivity.
Qed.

(** An open that raises leaves every object as it was. *)
Lemma open_raise_heap self st e st' :
  open self st = (Raise e, st') -> heap st' = heap st.
Proof.
  unfold open. intros H.
  apply bind_raise_inv in H as [H|(p & s1 & E1 & H)];
    [now apply getattr_state in H as ->|apply getattr_state in E1 as ->].
  apply bind_raise_inv in H as [H|(? & s2 & E2 & H)];
    [now apply log_at_heap in H|apply log_at_heap in E2].
  rewrite <- E2.
  apply bind_raise_inv in H as [H|(? & s3 & E3 & H)];
    [now apply getattr_state in H as ->|apply getattr_state in E3 as ->].
  apply bind_raise_inv in H as [H|(? & s4 & E4 & H)];
    [now apply getattr_state in H as ->|apply getattr_state in E4 as ->].
  apply bind_raise_inv in H as [H|(? & s5 & E5 & H)];
    [now apply getattr_state in H as ->|apply getattr_state in E5 as ->].
  apply bind_raise_inv in H as [H|(? & s6 & E6 & H)];
    [now apply serial_Serial_heap in H|apply serial_Serial_heap in E6].
  apply setattr_raise_state in H as ->. exact E6.
Qed.

(** C10: close on a closed connection (the port attribute None) raises
    nothing and leaves the whole state, the station in it, unchanged;
    close followed by close leaves the state that one close leaves, with
    the same outcome; and after an open that failed on a closed
    connection, close again raises nothing and changes nothing. *)
Theorem close_idempotent self st :
  (has_attr st self "serial_port" VNone -> close self st = (Ok tt, st)) /\
  (close self ;;; close self)%py st = close self st /\
  (forall e st',
     has_attr st self "serial_port" VNone ->
     open self st = (Raise e, st') ->
     close self st' = (Ok tt, st')).
Proof.
  split; [apply close_closed|]. split; [apply close_twice|].
  intros e st' (o & Ho & Hsp) Hopen. apply close_closed.
  exists o. split; [|exact Hsp].
  now rewrite (open_raise_heap _ _ _ _ Hopen).
Qed.

Lemma close_idempotent_witness :
  close 1 closed_state = (Ok tt, closed_state) /\
  (close 1 ;;; close 1)%py (demo_state []) = close 1 (demo_state []) /\
  exists e st', open 1 offline_state = (Raise e, st') /\
                close 1 st' = (Ok tt, st').
Proof.
  split; [|split].
  - apply (proj1 (close_idempotent 1 closed_state)).
    exists (station_object 3 5 VNone). split; reflexivity.
  - apply (proj1 (proj2 (close_idempotent 1 (demo_state [])))).
  - eexists; eexists. split; [reflexivity|].
    apply (proj2 (proj2 (close_idempotent 1 offline_state))
             (SerialException ("could not open port " ++ DEFAULT_PORT)%string)).
    + exists (station_object 3 5 VNone). split; reflexivity.
    + reflexivity.
Defined.

(* --------------------------------------------------------------------- *)
(* Packet construction                                                   *)
(* --------------------------------------------------------------------- *)

(** No record of parse_current has the key that _data_to_packet
    subscripts. *)
Lemma parsed_record_has_no_rain_total s data :
  parse_current s = Ok data -> data !! "rain_total" = None.
Proof.
  intros H. apply parse_current_inv in H
    as (t1 & t21 & t3 & t4 & t5 & t8 & _ & _ & _ & _ & _ & _ & ->).
  reflexivity.
Qed.

Lemma data_to_packet_missing_rain_total calculate_rain self data st :
  data !! "rain_total" = None ->
  DigiWXDriver._data_to_packet calculate_rain self data st
  = (Raise (KeyError "rain_total"), st).
Proof.
  intros H. unfold DigiWXDriver._data_to_packet, bind, DigiWXDriver.timestamp,
    lift, subscript.
  now rewrite H.
Qed.

(** Packet construction raises KeyError on every record the parser can
    produce, whatever the state and the host's rain helper. *)
Lemma data_to_packet_of_parsed_record calculate_rain self s data st :
  parse_current s = Ok data ->
  DigiWXDriver._data_to_packet calculate_rain self data st
  = (Raise (KeyError "rain_total"), st).
Proof.
  intros H. apply data_to_packet_missing_rain_total.
  eapply parsed_record_has_no_rain_total; eauto.
Qed.

(** On a dict that does have a rain total, the packet is returned with
    the nine documented keys, the values that the dict lacks being None,
    and the driver's carried rain total is updated. *)
Lemma data_to_packet_with_rain_total calculate_rain self data st rt last rain st1 :
  data !! "rain_total" = Some rt ->
  has_attr st self "last_rain" last ->
  calculate_rain rt last st = (Ok rain, st1) ->
  heap st1 = heap st ->
  exists pkt st',
    DigiWXDriver._data_to_packet calculate_rain self data st = (Ok pkt, st') /\
    has_attr st' self "last_rain" rt /\
    pkt !! "dateTime" = Some (VInt (now st)) /\
    pkt !! "usUnits" = Some (VInt weewx_US) /\
    pkt !! "windDir" = Some (dict_get data "wind_dir") /\
    pkt !! "windSpeed" = Some (dict_get data "wind_speed") /\
    pkt !! "inTemp" = Some (dict_get data "temperature_in") /\
    pkt !! "outTemp" = Some (dict_get data "temperature_out") /\
    pkt !! "outHumidity" = Some (dict_get data "humidity") /\
    pkt !! "pressure" = Some (dict_get data "pressure") /\
    pkt !! "rain" = Some rain.
Proof.
  intros Hrt (o & Ho & Hlast) Hcalc Hheap.
  unfold DigiWXDriver._data_to_packet, bind, DigiWXDriver.timestamp,
    lift, subscript.
  rewrite Hrt, (getattr_some _ _ _ _ _ Ho Hlast), Hcalc.
  rewrite <- Hheap in Ho. rewrite (setattr_some _ _ _ _ _ Ho).
  eexists; eexists. split; [reflexivity|]. split.
  - eexists. simpl. split; apply lookup_insert_eq.
  - repeat split.
Qed.

(** C4 (the code at the failing input): the record parsed from the
    documented sample line has no rain total, and packet construction on
    it raises KeyError for that key instead of returning a packet, in
    every state and with any rain helper. *)
Theorem data_to_packet_raises_KeyError
    (calculate_rain : value -> value -> Py value) self st :
  exists data,
    parse_current sample_line = Ok data /\
    DigiWXDriver._data_to_packet calculate_rain self data st
    = (Raise (KeyError "rain_total"), st).
Proof.
  destruct (parse_current_long sample_line)
    as (t1 & t21 & t3 & t4 & t5 & t8 & _ & _ & _ & _ & _ & _ & Hp);
    [vm_compute; lia|].
  eexists. split; [exact Hp|].
  eapply data_to_packet_of_parsed_record; eauto.
Qed.

(* ===================================================================== *)
(*  Further properties                                                   *)
(* ===================================================================== *)

(* --------------------------------------------------------------------- *)
(* Tokens                                                                *)
(* --------------------------------------------------------------------- *)

Lemma length_str_split s : length (str_split s) = S (count_commas s).
Proof.
  induction s as [|c r IH]; simpl; [reflexivity|].
  destruct (Ascii.eqb c comma); simpl; [now rewrite IH|].
  pose proof (str_split_nonempty r).
  destruct (str_split r); [contradiction|exact IH].
Qed.

(** X1: parse_current returns a record exactly when the line has at least
    21 commas, and raises IndexError exactly when it has fewer. *)
Theorem parse_current_iff_21_commas s :
  ((exists data, parse_current s = Ok data) <-> (21 <= count_commas s)%nat) /\
  (parse_current s = Raise IndexError <-> (count_commas s < 21)%nat).
Proof.
  pose proof (length_str_split s) as Hlen.
  destruct (le_lt_dec 21 (count_commas s)) as [Hge|Hlt].
  - destruct (parse_current_long s)
      as (t1 & t21 & t3 & t4 & t5 & t8 & _ & _ & _ & _ & _ & _ & Hp); [lia|].
    split; split; intros H; eauto; try lia.
    rewrite Hp in H. discriminate.
  - pose proof (parse_current_short s ltac:(lia)) as Hp.
    split; split; intros H; eauto; try lia.
    destruct H as [data H]. rewrite Hp in H. discriminate.
Qed.

(** X2: joining the tokens of a line with commas gives the line back: the
    tokens are the line cut at its commas, nothing trimmed and nothing
    lost. *)
Theorem join_str_split s : join_comma (str_split s) = s.
Proof.
  induction s as [|c r IH]; simpl; [reflexivity|].
  destruct (Ascii.eqb_spec c comma) as [->|Hc].
  - pose proof (str_split_nonempty r).
    destruct (str_split r) as [|t ts] eqn:E; [contradiction|].
    simpl. simpl in IH. now rewrite IH.
  - pose proof (str_split_nonempty r).
    destruct (str_split r) as [|t ts] eqn:E; [contradiction|].
    destruct ts as [|t' ts']; simpl in *; now rewrite <- IH.
Qed.

(** X3: a parsed record has the six keys temperature, dewpoint, humidity,
    wind_dir, wind_speed and pressure and no other, and it is the record
    of every line that has the same tokens at the six consumed indices:
    the other tokens, and how many there are, do not matter. *)
Theorem parsed_record_six_keys s data :
  parse_current s = Ok data ->
  (forall k, is_Some (data !! k) <-> exists f, k = field_key f) /\
  (forall s',
     (forall f, str_split s' !! field_index f = str_split s !! field_index f) ->
     parse_current s' = Ok data).
Proof.
  intros H. apply parse_current_inv in H
    as (t1 & t21 & t3 & t4 & t5 & t8 & E1 & E21 & E3 & E4 & E5 & E8 & ->).
  split; [intros k; apply record_keys|].
  intros s' Hs'. apply parse_current_tokens.
  - exact (eq_trans (Hs' Temperature) E1).
  - exact (eq_trans (Hs' Dewpoint) E21).
  - exact (eq_trans (Hs' Humidity) E3).
  - exact (eq_trans (Hs' WindDir) E4).
  - exact (eq_trans (Hs' WindSpeed) E5).
  - exact (eq_trans (Hs' Pressure) E8).
Qed.

Lemma parsed_record_six_keys_witness :
  (forall k, is_Some (record "-004" "W" "053" "290" "000" "30.07" !! k)
             <-> exists f, k = field_key f) /\
  (forall s',
     (forall f, str_split s' !! field_index f
                = str_split sample_line !! field_index f) ->
     parse_current s' = Ok (record "-004" "W" "053" "290" "000" "30.07")).
Proof.
  apply (parsed_record_six_keys sample_line).
  apply parse_current_tokens; reflexivity.
Defined.

(* --------------------------------------------------------------------- *)
(* White space                                                           *)
(* --------------------------------------------------------------------- *)

Lemma lstrip_first s c : first_char (lstrip s) = Some c -> is_space c = false.
Proof.
  induction s as [|a r IH]; simpl; [discriminate|].
  destruct (is_space a) eqn:Ea; [exact IH|].
  simpl. intros H. injection H as <-. exact Ea.
Qed.

Lemma lstrip_fixed s :
  (forall c, first_char s = Some c -> is_space c = false) -> lstrip s = s.
Proof.
  destruct s as [|a r]; simpl; [reflexivity|].
  intros H. now rewrite (H a eq_refl).
Qed.

Lemma rstrip_first s c :
  first_char s = Some c -> is_space c = false -> first_char (rstrip s) = Some c.
Proof.
  destruct s as [|a r]; simpl; [discriminate|].
  intros H Hc. injection H as ->.
  destruct (rstrip r); [now rewrite Hc|reflexivity].
Qed.

Lemma rstrip_last s c : last_char (rstrip s) = Some c -> is_space c = false.
Proof.
  induction s as [|a r IH]; simpl; [discriminate|].
  destruct (rstrip r) as [|b r'] eqn:E.
  - destruct (is_space a) eqn:Ea; simpl; [discriminate|].
    intros H. injection H as <-. exact Ea.
  - exact IH.
Qed.

Lemma rstrip_idem s : rstrip (rstrip s) = rstrip s.
Proof.
  induction s as [|a r IH]; simpl; [reflexivity|].
  destruct (rstrip r) as [|b r'] eqn:E.
  - destruct (is_space a) eqn:Ea; simpl; [reflexivity|now rewrite Ea].
  - simpl in IH |- *. now rewrite IH.
Qed.

Lemma strip_idem s : strip (strip s) = strip s.
Proof.
  unfold strip.
  rewrite (lstrip_fixed (rstrip (lstrip s))); [apply rstrip_idem|].
  intros c Hc. destruct (lstrip s) as [|a r] eqn:E; [discriminate|].
  assert (Ha : is_space a = false) by (apply (lstrip_first s); now rewrite E).
  rewrite (rstrip_first (String a r) a eq_refl Ha) in Hc. congruence.
Qed.

Lemma strip_ends s :
  (forall c, first_char (strip s) = Some c -> is_space c = false) /\
  (forall c, last_char (strip s) = Some c -> is_space c = false).
Proof.
  split; [|intros c; apply rstrip_last].
  intros c Hc. unfold strip in Hc.
  destruct (lstrip s) as [|a r] eqn:E; [discriminate|].
  assert (Ha : is_space a = false) by (apply (lstrip_first s); now rewrite E).
  rewrite (rstrip_first (String a r) a eq_refl Ha) in Hc. congruence.
Qed.

(* --------------------------------------------------------------------- *)
(* Integer tokens                                                        *)
(* --------------------------------------------------------------------- *)

Lemma digits_all s : forall acc n,
  all_digits s = true ->
  digits acc n s
  = (fold_left (fun a c => 10 * a + digit_val c) (chars s) acc,
     (n + String.length s)%nat, EmptyString).
Proof.
  induction s as [|c r IH]; simpl; intros acc n H.
  - now rewrite Nat.add_0_r.
  - apply andb_prop in H as [Hc Hr]. rewrite Hc, (IH _ _ Hr).
    now rewrite Nat.add_succ_r.
Qed.

Lemma digit_not_space c : is_digit c = true -> is_space c = false.
Proof.
  unfold is_digit, is_space. intros H. apply andb_prop in H as [H1 H2].
  apply Nat.leb_le in H1, H2.
  destruct (Nat.eqb_spec (nat_of_ascii c) 32); [lia|].
  destruct (Nat.leb_spec 9 (nat_of_ascii c)); simpl; [|reflexivity].
  destruct (Nat.leb_spec (nat_of_ascii c) 13); [lia|reflexivity].
Qed.

Lemma rstrip_digits s : all_digits s = true -> rstrip s = s.
Proof.
  induction s as [|c r IH]; simpl; [reflexivity|].
  intros H. apply andb_prop in H as [Hc Hr]. rewrite (IH Hr).
  destruct r; [now rewrite (digit_not_space c Hc)|reflexivity].
Qed.

Lemma strip_signed_digits c s :
  is_space c = false -> all_digits s = true -> s <> EmptyString ->
  strip (String c s) = String c s.
Proof.
  intros Hc Hs Hne. unfold strip. simpl. rewrite Hc. simpl.
  rewrite (rstrip_digits s Hs). destruct s; [contradiction|reflexivity].
Qed.

Lemma digit_not_sign c r : is_digit c = true -> sign (String c r) = (false, String c r).
Proof.
  intros H. destruct c as [[] [] [] [] [] [] [] []]; vm_compute in H |- *;
    congruence.
Qed.

Lemma parse_int_signed_digits ds :
  all_digits ds = true -> ds <> EmptyString ->
  parse_int ds = Ok (VInt (decimal_value ds)) /\
  parse_int (String "-" ds) = Ok (VInt (- decimal_value ds)) /\
  parse_int (String "+" ds) = Ok (VInt (decimal_value ds)) /\
  decimal_value (String "0" ds) = decimal_value ds.
Proof.
  intros Hd Hne.
  assert (Hrun : digits 0 0 ds
                 = (decimal_value ds, String.length ds, EmptyString))
    by (now rewrite (digits_all ds 0 0 Hd)).
  assert (Hlen : exists n, String.length ds = S n)
    by (destruct ds; [contradiction|simpl; eauto]).
  destruct Hlen as [n Hn]. rewrite Hn in Hrun.
  repeat split.
  - unfold parse_int, py_int.
    destruct ds as [|c r]; [contradiction|].
    simpl in Hd. apply andb_prop in Hd as [Hc Hr].
    assert (Hs : strip (String c r) = String c r).
    { unfold strip. simpl. rewrite (digit_not_space c Hc).
      apply (rstrip_digits (String c r)). simpl. now rewrite Hc, Hr. }
    rewrite Hs, (digit_not_sign c r Hc), Hrun. reflexivity.
  - unfold parse_int, py_int.
    rewrite (strip_signed_digits "-" ds eq_refl Hd Hne). simpl sign.
    cbv beta iota. now rewrite Hrun.
  - unfold parse_int, py_int.
    rewrite (strip_signed_digits "+" ds eq_refl Hd Hne). simpl sign.
    cbv beta iota. now rewrite Hrun.
Qed.

(** X4: a token made of decimal digits, with a minus or plus sign before
    them or none, always parses to its number, leading zeros allowed and
    without effect: the zero-padded fields of the hardware (-004, +024,
    053) parse, and so do its all-digit placeholders (999, 99999), which
    come out as numbers and not as None. *)
Theorem parse_int_digit_string ds :
  all_digits ds = true -> ds <> EmptyString ->
  parse_int ds = Ok (VInt (decimal_value ds)) /\
  parse_int (String "-" ds) = Ok (VInt (- decimal_value ds)) /\
  parse_int (String "+" ds) = Ok (VInt (decimal_value ds)) /\
  decimal_value (String "0" ds) = decimal_value ds.
Proof. exact (parse_int_signed_digits ds). Qed.

Lemma parse_int_digit_string_witness :
  parse_int "004" = Ok (VInt (decimal_value "004")) /\
  parse_int "-004" = Ok (VInt (- decimal_value "004")) /\
  parse_int "+004" = Ok (VInt (decimal_value "004")) /\
  decimal_value "0004" = decimal_value "004".
Proof.
  apply (parse_int_digit_string "004"); [reflexivity|discriminate].
Defined.

(** X5: parse_int and parse_float look at a token with the white space
    around it removed: a token and its stripped form parse alike. *)
Theorem parse_ignores_surrounding_space tok :
  parse_int (strip tok) = parse_int tok /\
  parse_float (strip tok) = parse_float tok.
Proof.
  unfold parse_int, parse_float, py_int, py_float.
  now rewrite strip_idem.
Qed.

Lemma digit_char m :
  (m < 10)%nat ->
  is_digit (ascii_of_nat (48 + m)) = true /\
  digit_val (ascii_of_nat (48 + m)) = Z.of_nat m.
Proof.
  intros H. do 10 (destruct m as [|m]; [split; reflexivity|]). lia.
Qed.

Lemma dec_digits_S f n acc :
  dec_digits (S f) n acc
  = if (n <? 10)%nat then String (ascii_of_nat (48 + n mod 10)) acc
    else dec_digits f (n / 10) (String (ascii_of_nat (48 + n mod 10)) acc).
Proof. reflexivity. Qed.

Lemma digits_digit a k c r :
  is_digit c = true ->
  digits a k (String c r) = digits (10 * a + digit_val c) (S k) r.
Proof. intros H. simpl. now rewrite H. Qed.

(** The digits that [dec_digits] writes are read back by [digits]. *)
Lemma dec_digits_run fuel : forall n acc,
  (n < fuel)%nat ->
  exists p, 0 < p /\ forall a k, exists k',
    digits a k (dec_digits fuel n acc)
    = digits (a * (10 * p) + Z.of_nat n) (S k') acc.
Proof.
  induction fuel as [|f IH]; intros n acc Hn; [lia|].
  rewrite dec_digits_S.
  destruct (digit_char (n mod 10)) as [Hd Hv];
    [apply Nat.mod_upper_bound; lia|].
  destruct (Nat.ltb_spec n 10) as [Hlt|Hge].
  - exists 1. split; [lia|]. intros a k. exists k.
    rewrite (digits_digit _ _ _ _ Hd), Hv, Nat.mod_small by lia.
    replace (a * (10 * 1) + Z.of_nat n) with (10 * a + Z.of_nat n) by ring.
    reflexivity.
  - destruct (IH (n / 10)%nat
                (String (ascii_of_nat (48 + n mod 10)) acc)) as (p & Hp & Hrun).
    { pose proof (Nat.div_lt n 10). lia. }
    exists (10 * p). split; [lia|]. intros a k.
    destruct (Hrun a k) as [k' Hk']. exists (S k').
    rewrite Hk', (digits_digit _ _ _ _ Hd), Hv.
    pose proof (Nat.div_mod_eq n 10) as Hdm.
    assert (Hz : Z.of_nat n = 10 * Z.of_nat (n / 10) + Z.of_nat (n mod 10))
      by (rewrite Hdm at 1; rewrite Nat2Z.inj_add, Nat2Z.inj_mul; reflexivity).
    replace (a * (10 * (10 * p)) + Z.of_nat n)
      with (10 * (a * (10 * p) + Z.of_nat (n / 10)) + Z.of_nat (n mod 10))
      by (rewrite Hz; ring).
    reflexivity.
Qed.

Lemma digits_full_all s : forall a k v k',
  digits a k s = (v, k', EmptyString) -> all_digits s = true.
Proof.
  induction s as [|c r IH]; simpl; intros a k v k' H; [reflexivity|].
  destruct (is_digit c); [simpl; eauto|discriminate].
Qed.

(** X6: parse_int reads back every integer from its decimal text, as
    '%d' writes it: the text of z parses to z. *)
Theorem parse_int_str_of_Z z : parse_int (str_of_Z z) = Ok (VInt z).
Proof.
  unfold str_of_Z.
  set (n := Z.to_nat (Z.abs z)).
  destruct (dec_digits_run (S n) n EmptyString) as (p & _ & Hrun); [lia|].
  set (ds := dec_digits (S n) n EmptyString) in *.
  destruct (Hrun 0 0%nat) as [k' Hk]. clear Hrun.
  change (digits (0 * (10 * p) + Z.of_nat n) (S k') EmptyString)
    with (0 * (10 * p) + Z.of_nat n, S k', EmptyString) in Hk.
  rewrite Z.mul_0_l, Z.add_0_l in Hk. rename Hk into Hrun.
  assert (Hall : all_digits ds = true) by (eapply digits_full_all; eauto).
  assert (Hne : ds <> EmptyString)
    by (intros E; rewrite E in Hrun; discriminate).
  assert (Hval : decimal_value ds = Z.of_nat n).
  { rewrite (digits_all ds 0 0 Hall) in Hrun. now injection Hrun. }
  destruct (parse_int_signed_digits ds Hall Hne) as (Hp & Hm & _).
  destruct (Z.ltb_spec z 0).
  - rewrite Hm, Hval. do 2 f_equal. lia.
  - rewrite Hp, Hval. do 2 f_equal. lia.
Qed.

(* --------------------------------------------------------------------- *)
(* What reading the line can change                                      *)
(* --------------------------------------------------------------------- *)

Lemma grows_intro r s st st' l n k :
  heap st' = heap st -> devices st' = devices st ->
  held st' = held st -> now st' = now st ->
  log st' = log st ++ l ->
  naps st' = naps st ++ n -> (length n <= s)%nat ->
  reads st' = (reads st + k)%nat -> (k <= r)%nat ->
  feed st' = drop k (feed st) ->
  grows r s st st'.
Proof.
  intros Hh Hd He Hn Hl Hn1 Hn2 Hk1 Hk2 Hk3. unfold grows.
  do 4 (split; [assumption|]).
  split; [exists l; assumption|].
  split; [exists n; split; assumption|].
  exists k. repeat split; assumption.
Qed.

Lemma grows_refl st : grows 0 0 st st.
Proof.
  apply (grows_intro 0 0 st st [] [] 0); try reflexivity;
    rewrite ?app_nil_r; simpl; auto.
Qed.

Lemma grows_trans r1 s1 r2 s2 st st1 st2 :
  grows r1 s1 st st1 -> grows r2 s2 st1 st2 ->
  grows (r1 + r2) (s1 + s2) st st2.
Proof.
  intros (Hh & Hd & He & Hn & [l Hl] & (n & Hn1 & Hn2) & (k & Hk1 & Hk2 & Hk3))
         (Hh' & Hd' & He' & Hn' & [l' Hl'] & (n' & Hn1' & Hn2')
          & (k' & Hk1' & Hk2' & Hk3')).
  apply (grows_intro _ _ st st2 (l ++ l') (n ++ n') (k + k')); try congruence.
  - rewrite Hl', Hl. now rewrite app_assoc.
  - rewrite Hn1', Hn1. now rewrite app_assoc.
  - rewrite length_app. lia.
  - lia.
  - lia.
  - rewrite Hk3', Hk3, drop_drop. reflexivity.
Qed.

Lemma grows_weaken r s r' s' st st' :
  (r <= r')%nat -> (s <= s')%nat -> grows r s st st' -> grows r' s' st st'.
Proof.
  intros Hr Hs (Hh & Hd & He & Hn & [l Hl] & (n & Hn1 & Hn2) & (k & Hk1 & Hk2 & Hk3)).
  apply (grows_intro _ _ st st' l n k); try assumption; lia.
Qed.

Lemma within_weaken {A} r s r' s' (m : Py A) :
  (r <= r')%nat -> (s <= s')%nat -> within r s m -> within r' s' m.
Proof. intros Hr Hs H st. eapply grows_weaken; eauto. Qed.

Lemma within_ret {A} (a : A) : within 0 0 (ret a).
Proof. intros st. apply grows_refl. Qed.

Lemma within_raise {A} e : within 0 0 (@raise A e).
Proof. intros st. apply grows_refl. Qed.

Lemma within_lift {A} (o : outcome A) : within 0 0 (lift o).
Proof. intros st. apply grows_refl. Qed.

Lemma within_getattr self name : within 0 0 (getattr self name).
Proof.
  intros st. destruct (getattr self name st) as [r s1] eqn:E.
  apply getattr_state in E as ->. apply grows_refl.
Qed.

Lemma within_load_global name : within 0 0 (load_global name).
Proof.
  intros st. unfold load_global. destruct (_ || _)%bool; apply grows_refl.
Qed.

Lemma within_log_at l msg : within 0 0 (log_at l msg).
Proof.
  intros st. unfold log_at. simpl.
  apply (grows_intro 0 0 st _ [(l, msg)] [] 0); try reflexivity;
    simpl; rewrite ?app_nil_r; auto.
Qed.

Lemma within_sleep v : within 0 1 (sleep v).
Proof.
  intros st. unfold sleep.
  assert (Hs : grows 0 1 st (set_naps (naps st ++ [v]) st))
    by (apply (grows_intro 0 1 st _ [] [v] 0); try reflexivity;
        simpl; rewrite ?app_nil_r; auto).
  assert (Hr : grows 0 1 st st)
    by (eapply grows_weaken; [| |apply grows_refl]; lia).
  destruct v; simpl; try exact Hr.
  - destruct (z <? 0)%Z; simpl; assumption.
  - destruct (SFltb f (S754_zero false)); simpl; assumption.
Qed.

Lemma within_serial_readline sp : within 1 0 (serial_readline sp).
Proof.
  intros st. unfold serial_readline.
  assert (Hr : grows 1 0 st st)
    by (eapply grows_weaken; [| |apply grows_refl]; lia).
  assert (Hs : forall rest, drop 1 (feed st) = rest ->
                 grows 1 0 st (set_feed rest st)).
  { intros rest Hrest.
    apply (grows_intro 1 0 st _ [] [] 1); try reflexivity;
      simpl; rewrite ?app_nil_r; auto; lia. }
  destruct sp; simpl; try exact Hr.
  destruct (feed st) as [|[buf|e] rest] eqn:E; simpl; apply Hs; reflexivity.
Qed.

Lemma within_bind {A B} r1 s1 r2 s2 (m : Py A) (k : A -> Py B) :
  within r1 s1 m -> (forall a, within r2 s2 (k a)) ->
  within (r1 + r2) (s1 + s2) (bind m k).
Proof.
  intros Hm Hk st. unfold bind. specialize (Hm st).
  destruct (m st) as [[a|e] st1]; simpl in Hm.
  - eapply grows_trans; [exact Hm|apply Hk].
  - simpl. eapply grows_weaken; [| |exact Hm]; lia.
Qed.

Lemma within_try_except {A} r1 s1 r2 s2 (m : Py A) h :
  within r1 s1 m -> (forall e k, h e = Some k -> within r2 s2 k) ->
  within (r1 + r2) (s1 + s2) (try_except m h).
Proof.
  intros Hm Hh st. unfold try_except. specialize (Hm st).
  destruct (m st) as [[a|e] st1]; simpl in Hm.
  - simpl. eapply grows_weaken; [| |exact Hm]; lia.
  - destruct (h e) as [k|] eqn:E.
    + eapply grows_trans; [exact Hm|eapply Hh; eauto].
    + simpl. eapply grows_weaken; [| |exact Hm]; lia.
Qed.

Lemma within_get_data self : within 1 0 (get_data self).
Proof.
  unfold get_data.
  apply (within_bind 0 0 1 0); [apply within_getattr|]. intros sp.
  apply (within_bind 1 0 0 0); [apply within_serial_readline|]. intros buf.
  apply (within_bind 0 0 0 0); [apply within_log_at|]. intros _.
  apply within_ret.
Qed.

Lemma within_retries_exceeded self : within 0 0 (retries_exceeded self).
Proof.
  unfold retries_exceeded.
  apply (within_bind 0 0 0 0); [apply within_getattr|]. intros m.
  apply (within_bind 0 0 0 0); [apply within_load_global|]. intros cmd.
  apply (within_bind 0 0 0 0); [apply within_lift|]. intros d.
  apply (within_bind 0 0 0 0); [apply within_log_at|]. intros _.
  apply within_raise.
Qed.

Lemma within_retry_loop self todo : forall ntries,
  within todo todo (retry_loop self ntries todo).
Proof.
  induction todo as [|todo IH]; intros ntries; simpl.
  - apply within_retries_exceeded.
  - apply (within_try_except 1 0 todo (S todo)); [apply within_get_data|].
    intros e k Hk. destruct (transport_fault e); [|discriminate].
    injection Hk as <-.
    apply (within_bind 0 0 todo (S todo)); [apply within_getattr|]. intros m.
    apply (within_bind 0 0 todo (S todo)); [apply within_lift|]. intros a.
    apply (within_bind 0 0 todo (S todo)); [apply within_lift|]. intros b.
    apply (within_bind 0 0 todo (S todo)); [apply within_log_at|]. intros _.
    apply (within_bind 0 0 todo (S todo)); [apply within_getattr|]. intros w.
    apply (within_bind 0 1 todo todo); [apply within_sleep|]. intros _.
    apply IH.
Qed.

(** X7: however the line behaves, get_data_with_retry reads it at most
    max_tries times and sleeps at most max_tries times, and it changes
    nothing else: no object, no device; the log and the record of sleeps
    are only added to, and each read takes one event off the line. *)
Theorem get_data_with_retry_bounded self st n :
  has_attr st self "max_tries" (VInt n) ->
  grows (Z.to_nat n) (Z.to_nat n) st (snd (get_data_with_retry self st)).
Proof.
  intros (o & Ho & Hn). unfold get_data_with_retry, bind.
  rewrite (getattr_some _ _ _ _ _ Ho Hn). apply within_retry_loop.
Qed.

Lemma get_data_with_retry_bounded_witness :
  grows 3 3 (demo_state [unplugged; Fault TypeError; unplugged])
    (snd (get_data_with_retry 1
            (demo_state [unplugged; Fault TypeError; unplugged]))).
Proof.
  apply (get_data_with_retry_bounded 1
           (demo_state [unplugged; Fault TypeError; unplugged]) 3).
  exists (station_object 3 5 (VSerial DEFAULT_PORT)). split; reflexivity.
Defined.

(** X8: get_data_with_retry never touches an object: after the call, in
    any state and whatever the outcome, the station and every other
    object are as before, and so are the devices held open. *)
Theorem get_data_with_retry_keeps_objects self st :
  heap (snd (get_data_with_retry self st)) = heap st /\
  held (snd (get_data_with_retry self st)) = held st /\
  devices (snd (get_data_with_retry self st)) = devices st.
Proof.
  assert (H : exists r s, grows r s st (snd (get_data_with_retry self st))).
  { unfold get_data_with_retry, bind.
    destruct (getattr self "max_tries" st) as [[m|e] s1] eqn:E;
      apply getattr_state in E as ->.
    - destruct m; try (exists 0%nat, 0%nat; apply grows_refl).
      exists (Z.to_nat z), (Z.to_nat z). apply within_retry_loop.
    - exists 0%nat, 0%nat. apply grows_refl. }
  destruct H as (r & s & Hh & Hd & He & _). auto.
Qed.

(* --------------------------------------------------------------------- *)
(* The retry loop, for any number of tries                               *)
(* --------------------------------------------------------------------- *)

(** A run of transport faults: each is logged at INFO and slept on, and
    the loop is left with as many iterations less. *)
Lemma retry_loop_faults faults : forall self ntries todo st o n w dev rest,
  heap st !! self = Some o ->
  attrs o !! "max_tries" = Some (VInt n) ->
  attrs o !! "retry_wait" = Some (VInt w) -> 0 <= w ->
  attrs o !! "serial_port" = Some (VSerial dev) ->
  Forall (fun e => transport_fault e = true) faults ->
  feed st = map Fault faults ++ rest ->
  exists st1,
    retry_loop self ntries (length faults + todo) st
    = retry_loop self (ntries + Z.of_nat (length faults)) todo st1 /\
    heap st1 = heap st /\ feed st1 = rest /\
    reads st1 = (reads st + length faults)%nat /\
    naps st1 = naps st ++ repeat (VInt w) (length faults) /\
    levels st1 = levels st ++ repeat INFO (length faults).
Proof.
  induction faults as [|e fs IH];
    intros self ntries todo st o n w dev rest Ho Hn Hw Hw0 Hsp Hall Hf.
  - exists st. simpl. rewrite Z.add_0_r, Nat.add_0_r, !app_nil_r.
    repeat split; auto.
  - apply Forall_cons in Hall as [He Hall]. simpl in Hf.
    destruct (IH self (ntries + 1) todo
                (after_failure ntries n w e (map Fault fs ++ rest) st)
                o n w dev rest Ho Hn Hw Hw0 Hsp Hall eq_refl)
      as (st1 & Hrun & Hh & Hfeed & Hreads & Hnaps & Hlev).
    exists st1. split; [|split; [|split; [|split; [|split]]]].
    + change (length (e :: fs) + todo)%nat with (S (length fs + todo)).
      rewrite (retry_loop_fault _ _ _ _ o n w dev e _ Ho Hn Hw Hw0 Hsp Hf He).
      rewrite Hrun. f_equal. simpl length. lia.
    + exact Hh.
    + exact Hfeed.
    + rewrite Hreads. simpl. lia.
    + rewrite Hnaps. simpl. now rewrite <- app_assoc.
    + rewrite Hlev. unfold levels. simpl. rewrite map_app. simpl.
      now rewrite <- app_assoc.
Qed.

(** X9: with max_tries = n, when the read fails k < n times with a
    transport fault and then succeeds, get_data_with_retry returns that
    read, stripped, after exactly k + 1 reads and exactly k sleeps of
    retry_wait seconds, having logged one INFO entry per failure and the
    DEBUG dump of the line; what the line sends after that is left for the
    next call. *)
Theorem first_read_after_failures self st n w dev faults buf rest :
  has_attr st self "max_tries" (VInt n) ->
  has_attr st self "retry_wait" (VInt w) -> 0 <= w ->
  has_attr st self "serial_port" (VSerial dev) ->
  Forall (fun e => transport_fault e = true) faults ->
  Z.of_nat (length faults) < n ->
  feed st = map Fault faults ++ Line buf :: rest ->
  exists st',
    get_data_with_retry self st = (Ok (strip buf), st') /\
    reads st' = (reads st + length faults + 1)%nat /\
    naps st' = naps st ++ repeat (VInt w) (length faults) /\
    levels st' = levels st ++ repeat INFO (length faults) ++ [DEBUG] /\
    feed st' = rest.
Proof.
  intros (o & Ho & Hn) (o' & Ho' & Hw) Hw0 (o'' & Ho'' & Hsp) Hall Hk Hf.
  assert (o' = o) as -> by congruence. assert (o'' = o) as -> by congruence.
  unfold get_data_with_retry, bind.
  rewrite (getattr_some _ _ _ _ _ Ho Hn).
  replace (Z.to_nat n)
    with (length faults + S (Z.to_nat n - length faults - 1))%nat by lia.
  destruct (retry_loop_faults faults self 0
              (S (Z.to_nat n - length faults - 1)) st o n w dev
              (Line buf :: rest) Ho Hn Hw Hw0 Hsp Hall Hf)
    as (st1 & Hrun & Hh & Hfeed & Hreads & Hnaps & Hlev).
  rewrite Hrun. rewrite <- Hh in Ho.
  rewrite (retry_loop_line _ _ _ _ o dev buf rest Ho Hsp Hfeed).
  eexists. split; [reflexivity|]. simpl. repeat split.
  - rewrite Hreads. lia.
  - exact Hnaps.
  - unfold levels in *. simpl. rewrite map_app, Hlev. simpl.
    now rewrite <- app_assoc.
Qed.

Lemma first_read_after_failures_witness :
  exists st',
    get_data_with_retry 1 (demo_state [unplugged; Line sample_line; unplugged])
    = (Ok (strip sample_line), st') /\
    reads st' = 2%nat /\ naps st' = [VInt 5] /\
    levels st' = [INFO; DEBUG] /\ feed st' = [unplugged].
Proof.
  apply (first_read_after_failures 1
           (demo_state [unplugged; Line sample_line; unplugged])
           3 5 DEFAULT_PORT [SerialException "device disconnected"]
           sample_line [unplugged]
           (ex_intro _ _ (conj eq_refl eq_refl))
           (ex_intro _ _ (conj eq_refl eq_refl))
           ltac:(lia)
           (ex_intro _ _ (conj eq_refl eq_refl))).
  - repeat constructor.
  - simpl. lia.
  - reflexivity.
Defined.

(** X10: with max_tries = n, when the read fails with a transport fault
    at every one of the n tries, get_data_with_retry returns no line: it
    raises after exactly n reads and exactly n sleeps, one after each
    failure, each failure logged at INFO.  For n = 0 or less the line is
    not read at all. *)
Theorem every_attempt_fails self st n w dev faults rest :
  has_attr st self "max_tries" (VInt n) ->
  has_attr st self "retry_wait" (VInt w) -> 0 <= w ->
  has_attr st self "serial_port" (VSerial dev) ->
  Forall (fun e => transport_fault e = true) faults ->
  length faults = Z.to_nat n ->
  feed st = map Fault faults ++ rest ->
  exists e st',
    get_data_with_retry self st = (Raise e, st') /\
    reads st' = (reads st + Z.to_nat n)%nat /\
    naps st' = naps st ++ repeat (VInt w) (Z.to_nat n) /\
    (exists l, levels st' = levels st ++ repeat INFO (Z.to_nat n) ++ l) /\
    feed st' = rest.
Proof.
  intros (o & Ho & Hn) (o' & Ho' & Hw) Hw0 (o'' & Ho'' & Hsp) Hall Hk Hf.
  assert (o' = o) as -> by congruence. assert (o'' = o) as -> by congruence.
  unfold get_data_with_retry, bind.
  rewrite (getattr_some _ _ _ _ _ Ho Hn).
  destruct (retry_loop_faults faults self 0 0 st o n w dev rest
              Ho Hn Hw Hw0 Hsp Hall Hf)
    as (st1 & Hrun & Hh & Hfeed & Hreads & Hnaps & Hlev).
  rewrite Nat.add_0_r, Hk in Hrun. rewrite Hrun. simpl retry_loop.
  destruct (retries_exceeded_raises self st1) as (e & He & _).
  exists e, st1. rewrite <- Hk. repeat split; try assumption.
  exists []. now rewrite app_nil_r.
Qed.

Lemma every_attempt_fails_witness :
  (exists e st',
     get_data_with_retry 1 (demo_state [unplugged; unplugged; unplugged; Line "DW"])
     = (Raise e, st') /\
     reads st' = 3%nat /\ naps st' = [VInt 5; VInt 5; VInt 5] /\
     (exists l, levels st' = [INFO; INFO; INFO] ++ l) /\
     feed st' = [Line "DW"]).
Proof.
  apply (every_attempt_fails 1
           (demo_state [unplugged; unplugged; unplugged; Line "DW"])
           3 5 DEFAULT_PORT
           [SerialException "device disconnected";
            SerialException "device disconnected";
            SerialException "device disconnected"]
           [Line "DW"]
           (ex_intro _ _ (conj eq_refl eq_refl))
           (ex_intro _ _ (conj eq_refl eq_refl))
           ltac:(lia)
           (ex_intro _ _ (conj eq_refl eq_refl))).
  - repeat constructor.
  - reflexivity.
  - reflexivity.
Defined.

(** X11: an exception of the read that is neither SerialException nor
    WeeWxIOError is not retried: it leaves get_data_with_retry at once,
    after that one read, with nothing logged and no sleep. *)
Theorem other_exception_not_retried self st n dev e rest :
  has_attr st self "max_tries" (VInt n) -> 0 < n ->
  has_attr st self "serial_port" (VSerial dev) ->
  transport_fault e = false ->
  feed st = Fault e :: rest ->
  get_data_with_retry self st = (Raise e, set_feed rest st).
Proof.
  intros (o & Ho & Hn) Hpos (o' & Ho' & Hsp) He Hf.
  assert (o' = o) as -> by congruence.
  unfold get_data_with_retry, bind.
  rewrite (getattr_some _ _ _ _ _ Ho Hn).
  destruct (Z.to_nat n) as [|todo] eqn:E; [lia|].
  simpl. unfold try_except.
  now rewrite (get_data_fault _ _ _ _ _ _ Ho Hsp Hf), He.
Qed.

Lemma other_exception_not_retried_witness :
  get_data_with_retry 1 (demo_state [Fault TypeError; Line "DW"])
  = (Raise TypeError, set_feed [Line "DW"] (demo_state [Fault TypeError; Line "DW"])).
Proof.
  apply (other_exception_not_retried 1
           (demo_state [Fault TypeError; Line "DW"]) 3 DEFAULT_PORT TypeError
           [Line "DW"]
           (ex_intro _ _ (conj eq_refl eq_refl)) ltac:(lia)
           (ex_intro _ _ (conj eq_refl eq_refl)) eq_refl eq_refl).
Defined.

(** X12: reading a station whose port is closed (serial_port None)
    raises AttributeError at once: the line is not read, nothing is
    retried, logged or slept, and the state is unchanged. *)
Theorem read_on_closed_station self st n :
  has_attr st self "max_tries" (VInt n) -> 0 < n ->
  has_attr st self "serial_port" VNone ->
  get_data_with_retry self st = (Raise (AttributeError "readline"), st) /\
  get_current self st = (Raise (AttributeError "readline"), st).
Proof.
  intros (o & Ho & Hn) Hpos (o' & Ho' & Hsp).
  assert (o' = o) as -> by congruence.
  assert (H : get_data_with_retry self st
              = (Raise (AttributeError "readline"), st)).
  { unfold get_data_with_retry, bind.
    rewrite (getattr_some _ _ _ _ _ Ho Hn).
    destruct (Z.to_nat n) as [|todo] eqn:E; [lia|].
    simpl. unfold try_except, get_data, bind.
    now rewrite (getattr_some _ _ _ _ _ Ho Hsp). }
  split; exact H.
Qed.

Lemma read_on_closed_station_witness :
  get_data_with_retry 1 closed_state
  = (Raise (AttributeError "readline"), closed_state) /\
  get_current 1 closed_state
  = (Raise (AttributeError "readline"), closed_state).
Proof.
  apply (read_on_closed_station 1 closed_state 3
           (ex_intro _ _ (conj eq_refl eq_refl)) ltac:(lia)
           (ex_intro _ _ (conj eq_refl eq_refl))).
Defined.

Lemma get_data_ok_stripped self st raw st' :
  get_data self st = (Ok raw, st') -> exists buf, raw = strip buf.
Proof.
  unfold get_data. intros H.
  apply bind_ok_inv in H as (sp & s1 & _ & H).
  apply bind_ok_inv in H as (buf & s2 & _ & H).
  apply bind_ok_inv in H as (u & s3 & _ & H).
  unfold ret in H. injection H as <- _. eauto.
Qed.

Lemma retry_loop_ok_stripped self todo : forall ntries st raw st',
  retry_loop self ntries todo st = (Ok raw, st') -> exists buf, raw = strip buf.
Proof.
  induction todo as [|todo IH]; intros ntries st raw st' H; simpl in H.
  - destruct (retries_exceeded_raises self st) as (e & He & _).
    rewrite He in H. discriminate.
  - unfold try_except in H.
    destruct (get_data self st) as [[a|e] s1] eqn:E.
    + injection H as <- _. eapply get_data_ok_stripped; eauto.
    + destruct (transport_fault e); [|discriminate].
      do 6 (apply bind_ok_inv in H as (? & ? & _ & H)). eauto.
Qed.

(** X13: a line that get_data_with_retry or get_current returns is
    stripped: it neither begins nor ends with white space (the line end
    is gone), and stripping it again changes nothing. *)
Theorem returned_line_is_stripped self st raw st' :
  get_current self st = (Ok raw, st') ->
  strip raw = raw /\
  (forall c, first_char raw = Some c -> is_space c = false) /\
  (forall c, last_char raw = Some c -> is_space c = false).
Proof.
  unfold get_current, get_data_with_retry. intros H.
  apply bind_ok_inv in H as (m & s1 & _ & H).
  destruct m; try discriminate.
  apply retry_loop_ok_stripped in H as [buf ->].
  split; [apply strip_idem|apply strip_ends].
Qed.

Lemma returned_line_is_stripped_witness :
  strip "DW,-004" = "DW,-004" /\
  (forall c, first_char "DW,-004" = Some c -> is_space c = false) /\
  (forall c, last_char "DW,-004" = Some c -> is_space c = false).
Proof.
  apply (returned_line_is_stripped 1
           (demo_state [Line (String " " (String "D" (String "W"
              (String "," (String "-" (String "0" (String "0" (String "4"
              (String (ascii_of_nat 13) (String (ascii_of_nat 10)
               EmptyString))))))))))])
           "DW,-004"
           (snd (get_current 1
              (demo_state [Line (String " " (String "D" (String "W"
              (String "," (String "-" (String "0" (String "0" (String "4"
              (String (ascii_of_nat 13) (String (ascii_of_nat 10)
               EmptyString))))))))))])))).
  reflexivity.
Defined.

(* --------------------------------------------------------------------- *)
(* Opening and closing the port                                          *)
(* --------------------------------------------------------------------- *)

Lemma filter_not_mem p l :
  mem p l = false -> List.filter (fun q => negb (String.eqb p q)) l = l.
Proof.
  induction l as [|q l IH]; simpl; [reflexivity|].
  destruct (String.eqb p q); simpl; [discriminate|].
  intros H. now rewrite (IH H).
Qed.


(** The state after an open that succeeded on the device [p]. *)
Lemma open_ok self st o p b t :
  heap st !! self = Some o ->
  attrs o !! "port" = Some (VStr p) ->
  attrs o !! "baudrate" = Some b -> attrs o !! "timeout" = Some t ->
  mem p (devices st) = true ->
  open self st
  = (Ok tt,
     set_heap (<[self := mkObject (cls o)
                           (<["serial_port" := VSerial p]> (attrs o))]> (heap st))
       (set_held (p :: held st)
          (set_log (log st ++ [(DEBUG, ("open serial port " ++ p)%string)]) st))).
Proof.
  intros Ho Hp Hb Ht Hm. unfold open, bind.
  rewrite (getattr_some _ _ _ _ _ Ho Hp). unfold logdbg, log_at.
  erewrite (getattr_some self "port") by (simpl; eassumption).
  erewrite (getattr_some self "baudrate") by (simpl; eassumption).
  erewrite (getattr_some self "timeout") by (simpl; eassumption).
  unfold serial_Serial. simpl devices. rewrite Hm.
  erewrite setattr_some by (simpl; eassumption). reflexivity.
Qed.

Lemma open_refused self st o p b t :
  heap st !! self = Some o ->
  attrs o !! "port" = Some (VStr p) ->
  attrs o !! "baudrate" = Some b -> attrs o !! "timeout" = Some t ->
  mem p (devices st) = false ->
  open self st
  = (Raise (SerialException ("could not open port " ++ p)%string),
     set_log (log st ++ [(DEBUG, ("open serial port " ++ p)%string)]) st).
Proof.
  intros Ho Hp Hb Ht Hm. unfold open, bind.
  rewrite (getattr_some _ _ _ _ _ Ho Hp). unfold logdbg, log_at.
  erewrite (getattr_some self "port") by (simpl; eassumption).
  erewrite (getattr_some self "baudrate") by (simpl; eassumption).
  erewrite (getattr_some self "timeout") by (simpl; eassumption).
  unfold serial_Serial. simpl devices. now rewrite Hm.
Qed.

(** The state after a close of a station that holds the device [p]. *)
Lemma close_open_port self st o p pv :
  heap st !! self = Some o ->
  attrs o !! "serial_port" = Some (VSerial p) ->
  attrs o !! "port" = Some pv ->
  close self st
  = (Ok tt,
     set_heap (<[self := mkObject (cls o)
                           (<["serial_port" := VNone]> (attrs o))]> (heap st))
       (set_held (List.filter (fun q => negb (String.eqb p q)) (held st))
          (set_log (log st ++ [(DEBUG, ("close serial port " ++ fmt_s pv)%string)])
             st))).
Proof.
  intros Ho Hsp Hp. unfold close, bind.
  rewrite (getattr_some _ _ _ _ _ Ho Hsp).
  rewrite (getattr_some _ _ _ _ _ Ho Hp). unfold logdbg, log_at.
  erewrite (getattr_some self "serial_port") by (simpl; eassumption).
  unfold serial_close.
  erewrite setattr_some by (simpl; eassumption). reflexivity.
Qed.

(** X14: open succeeds exactly when the device of the station's port can
    be opened.  Then the station holds the open port in serial_port, the
    device is held, and one DEBUG entry names the port; no other attribute
    and no other object changes.  Otherwise open raises SerialException
    and, but for that DEBUG entry, the state is as before: serial_port
    is not assigned. *)
Theorem open_outcome self st o p b t :
  heap st !! self = Some o ->
  attrs o !! "port" = Some (VStr p) ->
  attrs o !! "baudrate" = Some b -> attrs o !! "timeout" = Some t ->
  (mem p (devices st) = true ->
   exists st',
     open self st = (Ok tt, st') /\
     has_attr st' self "serial_port" (VSerial p) /\
     held st' = p :: held st /\
     log st' = log st ++ [(DEBUG, ("open serial port " ++ p)%string)] /\
     (forall name, name <> "serial_port" ->
        forall v, has_attr st' self name v <-> has_attr st self name v) /\
     (forall a, a <> self -> heap st' !! a = heap st !! a)) /\
  (mem p (devices st) = false ->
   open self st
   = (Raise (SerialException ("could not open port " ++ p)%string),
      set_log (log st ++ [(DEBUG, ("open serial port " ++ p)%string)]) st)).
Proof.
  intros Ho Hp Hb Ht. split; intros Hm.
  - eexists. split; [apply (open_ok self st o p b t); assumption|].
    simpl. split; [|split; [reflexivity|split; [reflexivity|split]]].
    + eexists. simpl. split; apply lookup_insert_eq.
    + intros name Hname v. unfold has_attr. simpl.
      rewrite lookup_insert_eq. split.
      * intros (o' & Ho' & Hv). injection Ho' as <-. simpl in Hv.
        rewrite lookup_insert_ne in Hv by congruence. eauto.
      * intros (o' & Ho' & Hv). assert (o' = o) as -> by congruence.
        eexists. split; [reflexivity|]. simpl.
        now rewrite lookup_insert_ne by congruence.
    + intros a Ha. now rewrite lookup_insert_ne by congruence.
  - apply (open_refused self st o p b t); assumption.
Qed.

Lemma open_outcome_witness :
  (exists st',
     open 1 closed_state = (Ok tt, st') /\
     has_attr st' 1 "serial_port" (VSerial DEFAULT_PORT) /\
     held st' = [DEFAULT_PORT] /\
     log st' = [(DEBUG, "open serial port /dev/ttyS0")] /\
     (forall name, name <> "serial_port" ->
        forall v, has_attr st' 1 name v <-> has_attr closed_state 1 name v) /\
     (forall a, a <> 1%nat -> heap st' !! a = heap closed_state !! a)) /\
  open 1 offline_state
  = (Raise (SerialException "could not open port /dev/ttyS0"),
     set_log [(DEBUG, "open serial port /dev/ttyS0")] offline_state).
Proof.
  split.
  - apply (proj1 (open_outcome 1 closed_state (station_object 3 5 VNone)
                    DEFAULT_PORT (VInt 19200) (VInt 3)
                    eq_refl eq_refl eq_refl eq_refl)).
    reflexivity.
  - apply (proj2 (open_outcome 1 offline_state (station_object 3 5 VNone)
                    DEFAULT_PORT (VInt 19200) (VInt 3)
                    eq_refl eq_refl eq_refl eq_refl)).
    reflexivity.
Defined.

(** X15: open followed by close, on a closed station whose device can be
    opened and is not yet held, is a round trip: every object, the
    station included, and the devices held are as before; the log has
    two more DEBUG entries, for the open and for the close. *)
Theorem open_then_close self st o p b t :
  heap st !! self = Some o ->
  attrs o !! "port" = Some (VStr p) ->
  attrs o !! "baudrate" = Some b -> attrs o !! "timeout" = Some t ->
  attrs o !! "serial_port" = Some VNone ->
  mem p (devices st) = true -> mem p (held st) = false ->
  (open self ;;; close self)%py st
  = (Ok tt,
     set_log (log st ++ [(DEBUG, ("open serial port " ++ p)%string);
                         (DEBUG, ("close serial port " ++ p)%string)]) st).
Proof.
  intros Ho Hp Hb Ht Hsp Hm Hh. unfold bind.
  rewrite (open_ok self st o p b t Ho Hp Hb Ht Hm).
  erewrite (close_open_port self _ _ p (VStr p));
    [|simpl; apply lookup_insert_eq|simpl; apply lookup_insert_eq
     |simpl; rewrite lookup_insert_ne by discriminate; exact Hp].
  f_equal. destruct st as [h l n f r d he nw]. unfold set_heap, set_held, set_log.
  simpl in *. rewrite String.eqb_refl. simpl.
  rewrite (filter_not_mem p he Hh), <- app_assoc. simpl.
  f_equal. rewrite insert_insert_eq, insert_insert_eq.
  rewrite (insert_id (attrs o) "serial_port" VNone Hsp).
  destruct o as [k a]. simpl. now apply insert_id.
Qed.

Lemma open_then_close_witness :
  (open 1 ;;; close 1)%py closed_state
  = (Ok tt,
     set_log [(DEBUG, "open serial port /dev/ttyS0");
              (DEBUG, "close serial port /dev/ttyS0")] closed_state).
Proof.
  apply (open_then_close 1 closed_state (station_object 3 5 VNone)
           DEFAULT_PORT (VInt 19200) (VInt 3)
           eq_refl eq_refl eq_refl eq_refl eq_refl eq_refl eq_refl).
Defined.



(* --------------------------------------------------------------------- *)
(* The adapter: packets and the generator                                *)
(* --------------------------------------------------------------------- *)

Lemma packet_domain (a b c d e f g h i : value) k :
  is_Some ((<["dateTime" := a]> (<["usUnits" := b]> (<["windDir" := c]>
           (<["windSpeed" := d]> (<["inTemp" := e]> (<["outTemp" := f]>
           (<["outHumidity" := g]> (<["pressure" := h]>
           (<["rain" := i]> (∅ : dict)))))))))) !! k)
  <-> In k packet_keys.
Proof.
  split.
  - intros [v Hv].
    repeat (apply lookup_insert_Some in Hv as [[<- _]|[_ Hv]];
            [simpl; tauto|]).
    rewrite lookup_empty in Hv. discriminate.
  - simpl. intros Hk.
    repeat (destruct Hk as [<-|Hk]; [eexists; reflexivity|]).
    contradiction.
Qed.

(** X17: on a parsed record to which a rain total was added,
    _data_to_packet returns a packet with exactly the nine keys dateTime,
    usUnits, windDir, windSpeed, inTemp, outTemp, outHumidity, pressure
    and rain.  Wind direction, wind speed, humidity and pressure are the
    record's; inTemp and outTemp are None, for the record's temperature
    and dewpoint are under keys the packet does not read; rain is what
    the host's helper made of the new and the carried total, and the
    carried total becomes the new one. *)
Theorem packet_of_record_with_rain_total
    (calculate_rain : value -> value -> Py value)
    self s data st rt last rain st1 :
  parse_current s = Ok data ->
  has_attr st self "last_rain" last ->
  calculate_rain rt last st = (Ok rain, st1) ->
  heap st1 = heap st ->
  exists pkt st',
    DigiWXDriver._data_to_packet calculate_rain self
      (<["rain_total" := rt]> data) st = (Ok pkt, st') /\
    has_attr st' self "last_rain" rt /\
    (forall k, is_Some (pkt !! k) <-> In k packet_keys) /\
    pkt !! "dateTime" = Some (VInt (now st)) /\
    pkt !! "usUnits" = Some (VInt weewx_US) /\
    pkt !! "windDir" = data !! "wind_dir" /\
    pkt !! "windSpeed" = data !! "wind_speed" /\
    pkt !! "outHumidity" = data !! "humidity" /\
    pkt !! "pressure" = data !! "pressure" /\
    pkt !! "inTemp" = Some VNone /\
    pkt !! "outTemp" = Some VNone /\
    pkt !! "rain" = Some rain.
Proof.
  intros Hparse (o & Ho & Hlast) Hcalc Hheap.
  apply parse_current_inv in Hparse
    as (t1 & t21 & t3 & t4 & t5 & t8 & _ & _ & _ & _ & _ & _ & ->).
  unfold DigiWXDriver._data_to_packet, bind, DigiWXDriver.timestamp,
    lift, subscript.
  rewrite lookup_insert_eq, (getattr_some _ _ _ _ _ Ho Hlast), Hcalc.
  rewrite <- Hheap in Ho. rewrite (setattr_some _ _ _ _ _ Ho).
  eexists; eexists. split; [reflexivity|]. split.
  - eexists. simpl. split; apply lookup_insert_eq.
  - split; [intros k; apply packet_domain|]. repeat split.
Qed.

Lemma packet_of_record_with_rain_total_witness :
  exists pkt st',
    DigiWXDriver._data_to_packet rain_delta 2
      (<["rain_total" := VInt 12]> (record "-004" "W" "053" "290" "000" "30.07"))
      (driver_state (VInt 10) []) = (Ok pkt, st') /\
    has_attr st' 2 "last_rain" (VInt 12) /\
    (forall k, is_Some (pkt !! k) <-> In k packet_keys) /\
    pkt !! "dateTime" = Some (VInt 1700000000) /\
    pkt !! "usUnits" = Some (VInt weewx_US) /\
    pkt !! "windDir"
    = record "-004" "W" "053" "290" "000" "30.07" !! "wind_dir" /\
    pkt !! "windSpeed"
    = record "-004" "W" "053" "290" "000" "30.07" !! "wind_speed" /\
    pkt !! "outHumidity"
    = record "-004" "W" "053" "290" "000" "30.07" !! "humidity" /\
    pkt !! "pressure"
    = record "-004" "W" "053" "290" "000" "30.07" !! "pressure" /\
    pkt !! "inTemp" = Some VNone /\
    pkt !! "outTemp" = Some VNone /\
    pkt !! "rain" = Some (VInt 2).
Proof.
  apply (packet_of_record_with_rain_total rain_delta 2 sample_line
           (record "-004" "W" "053" "290" "000" "30.07")
           (driver_state (VInt 10) []) (VInt 12) (VInt 10) (VInt 2)
           (driver_state (VInt 10) [])).
  - apply parse_current_tokens; reflexivity.
  - exists (driver_object (VInt 10)). split; reflexivity.
  - reflexivity.
  - reflexivity.
Defined.

(** X18: when the host's rain helper raises, _data_to_packet raises the
    same exception and does nothing after it: the state is the one the
    helper left, so the carried rain total is not updated. *)
Theorem rain_helper_exception_keeps_total
    (calculate_rain : value -> value -> Py value)
    self data st rt last e st1 :
  data !! "rain_total" = Some rt ->
  has_attr st self "last_rain" last ->
  calculate_rain rt last st = (Raise e, st1) ->
  DigiWXDriver._data_to_packet calculate_rain self data st = (Raise e, st1).
Proof.
  intros Hrt (o & Ho & Hlast) Hcalc.
  unfold DigiWXDriver._data_to_packet, bind, DigiWXDriver.timestamp,
    lift, subscript.
  now rewrite Hrt, (getattr_some _ _ _ _ _ Ho Hlast), Hcalc.
Qed.

Lemma rain_helper_exception_keeps_total_witness :
  DigiWXDriver._data_to_packet (fun _ _ => raise TypeError) 2
    (<["rain_total" := VStr "NA"]> ∅) (driver_state (VInt 10) [])
  = (Raise TypeError, driver_state (VInt 10) []).
Proof.
  apply (rain_helper_exception_keeps_total (fun _ _ => raise TypeError) 2
           (<["rain_total" := VStr "NA"]> ∅) (driver_state (VInt 10) [])
           (VStr "NA") (VInt 10) TypeError (driver_state (VInt 10) [])).
  - reflexivity.
  - exists (driver_object (VInt 10)). split; reflexivity.
  - reflexivity.
Defined.

Lemma genLoopPackets_S calculate_rain repr_dict fuel self :
  DigiWXDriver.genLoopPackets calculate_rain repr_dict (S fuel) self
  = (station <- getattr self "_station" ;;
     raw <- match station with
            | VRef a => get_current a
            | _ => raise (AttributeError "get_current")
            end ;;
     match raw with
     | EmptyString =>
         DigiWXDriver.genLoopPackets calculate_rain repr_dict fuel self
     | _ =>
         logdbg ("raw data: " ++ raw)%string ;;;
         data <- lift (parse_current raw) ;;
         logdbg ("parsed data: " ++ repr_dict data)%string ;;;
         packet <- DigiWXDriver._data_to_packet calculate_rain self data ;;
         ret (Some packet)
     end)%py.
Proof. reflexivity. Qed.

(** X19: genLoopPackets never yields a packet.  Whatever the state, the
    line's behaviour, the host's rain helper and the number of turns of
    its loop, no turn gets to the yield: a turn skips an empty read, or
    raises; on a line that parses, _data_to_packet raises KeyError for
    the rain total that no parsed record has. *)
Theorem genLoopPackets_never_yields
    (calculate_rain : value -> value -> Py value) (repr_dict : dict -> string)
    fuel self st pkt :
  fst (DigiWXDriver.genLoopPackets calculate_rain repr_dict fuel self st)
  <> Ok (Some pkt).
Proof.
  revert st. induction fuel as [|fuel IH]; intros st; [discriminate|].
  rewrite genLoopPackets_S. intros H.
  match type of H with fst (?m st) = _ => destruct (m st) as [r s'] eqn:E end.
  simpl in H. subst r.
  apply bind_ok_inv in E as (station & s1 & _ & E).
  apply bind_ok_inv in E as (raw & s2 & _ & E).
  destruct raw as [|c raw].
  - apply (IH s2). now rewrite E.
  - apply bind_ok_inv in E as (u & s3 & _ & E).
    apply bind_ok_inv in E as (data & s4 & Hparse & E).
    apply bind_ok_inv in E as (u' & s5 & _ & E).
    apply bind_ok_inv in E as (packet & s6 & Hpkt & _).
    unfold lift in Hparse. injection Hparse as Hparse _.
    rewrite (data_to_packet_of_parsed_record _ _ _ _ _ Hparse) in Hpkt.
    discriminate.
Qed.

(** A driver whose station at [a] is ready to read: [n] tries, the port
    open. *)
Lemma get_current_line self st o dev n buf rest :
  heap st !! self = Some o ->
  attrs o !! "max_tries" = Some (VInt n) -> 0 < n ->
  attrs o !! "serial_port" = Some (VSerial dev) ->
  feed st = Line buf :: rest ->
  get_current self st = (Ok (strip buf), after_read buf rest st).
Proof.
  intros Ho Hn Hpos Hsp Hf. unfold get_current, get_data_with_retry, bind.
  rewrite (getattr_some _ _ _ _ _ Ho Hn).
  destruct (Z.to_nat n) as [|todo] eqn:E; [lia|].
  apply (retry_loop_line _ _ _ _ o dev); assumption.
Qed.

(** X20: the generator skips the reads that come back empty.  After k
    lines that are empty once stripped (time-outs, bare line ends), it is
    where it would be had it started after them: k reads were made, each
    dumped at DEBUG, and nothing was parsed, built, slept or changed. *)
Theorem genLoopPackets_skips_empty_reads
    (calculate_rain : value -> value -> Py value) (repr_dict : dict -> string)
    bufs : forall fuel self a st n dev rest,
  has_attr st self "_station" (VRef a) ->
  has_attr st a "max_tries" (VInt n) -> 0 < n ->
  has_attr st a "serial_port" (VSerial dev) ->
  Forall (fun buf => strip buf = EmptyString) bufs ->
  feed st = map Line bufs ++ rest ->
  exists st1,
    DigiWXDriver.genLoopPackets calculate_rain repr_dict
      (length bufs + fuel) self st
    = DigiWXDriver.genLoopPackets calculate_rain repr_dict fuel self st1 /\
    heap st1 = heap st /\ held st1 = held st /\ naps st1 = naps st /\
    feed st1 = rest /\
    reads st1 = (reads st + length bufs)%nat /\
    levels st1 = levels st ++ repeat DEBUG (length bufs).
Proof.
  induction bufs as [|buf bufs IH];
    intros fuel self a st n dev rest Hst Hn Hpos Hsp Hall Hf.
  - exists st. simpl. rewrite Nat.add_0_r, app_nil_r. repeat split; auto.
  - apply Forall_cons in Hall as [Hbuf Hall]. simpl in Hf.
    destruct Hst as (d & Hd & Hst). destruct Hn as (o & Ho & Hn).
    destruct Hsp as (o' & Ho' & Hsp). assert (o' = o) as -> by congruence.
    destruct (IH fuel self a (after_read buf (map Line bufs ++ rest) st)
                n dev rest) as (st1 & Hrun & Hh & Hheld & Hnaps & Hfeed & Hreads & Hlev);
      try assumption; try (eexists; split; eassumption); try reflexivity.
    exists st1. split; [|repeat split; try assumption].
    + change (length (buf :: bufs) + fuel)%nat with (S (length bufs + fuel)).
      rewrite genLoopPackets_S. unfold bind at 1.
      rewrite (getattr_some _ _ _ _ _ Hd Hst). unfold bind at 1.
      rewrite (get_current_line a st o dev n buf _ Ho Hn Hpos Hsp Hf), Hbuf.
      exact Hrun.
    + rewrite Hreads. simpl. lia.
    + rewrite Hlev. unfold levels. simpl. rewrite map_app. simpl.
      now rewrite <- app_assoc.
Qed.

Lemma genLoopPackets_skips_empty_reads_witness :
  exists st1,
    DigiWXDriver.genLoopPackets rain_delta (fun _ => "{}") (2 + 1) 2
      (driver_state VNone [Line ""; Line " "; Line sample_line])
    = DigiWXDriver.genLoopPackets rain_delta (fun _ => "{}") 1 2 st1 /\
    heap st1 = heap (driver_state VNone [Line ""; Line " "; Line sample_line]) /\
    held st1 = [DEFAULT_PORT] /\ naps st1 = [] /\
    feed st1 = [Line sample_line] /\
    reads st1 = 2%nat /\
    levels st1 = [DEBUG; DEBUG].
Proof.
  apply (genLoopPackets_skips_empty_reads rain_delta (fun _ => "{}")
           [""; " "] 1 2 1
           (driver_state VNone [Line ""; Line " "; Line sample_line])
           3 DEFAULT_PORT [Line sample_line]
           (ex_intro _ _ (conj eq_refl eq_refl))
           (ex_intro _ _ (conj eq_refl eq_refl))
           ltac:(lia)
           (ex_intro _ _ (conj eq_refl eq_refl))).
  - repeat constructor.
  - reflexivity.
Defined.

(** X21: the generator does not catch what reading or parsing raises.
    When get_current raises, the turn raises the same exception from the
    same state; and a line, not empty, with fewer than 21 commas ends the
    generator with IndexError, once the line is logged at DEBUG. *)
Theorem genLoopPackets_propagates
    (calculate_rain : value -> value -> Py value) (repr_dict : dict -> string)
    fuel self a st :
  has_attr st self "_station" (VRef a) ->
  (forall e st',
     get_current a st = (Raise e, st') ->
     DigiWXDriver.genLoopPackets calculate_rain repr_dict (S fuel) self st
     = (Raise e, st')) /\
  (forall c raw st',
     get_current a st = (Ok (String c raw), st') ->
     (count_commas (String c raw) < 21)%nat ->
     DigiWXDriver.genLoopPackets calculate_rain repr_dict (S fuel) self st
     = (Raise IndexError,
        set_log (log st' ++ [(DEBUG, ("raw data: " ++ String c raw)%string)]) st')).
Proof.
  intros (d & Hd & Hst). split.
  - intros e st' Hget. rewrite genLoopPackets_S. unfold bind.
    now rewrite (getattr_some _ _ _ _ _ Hd Hst), Hget.
  - intros c raw st' Hget Hshort. rewrite genLoopPackets_S. unfold bind.
    rewrite (getattr_some _ _ _ _ _ Hd Hst), Hget.
    unfold logdbg, log_at, lift.
    rewrite (parse_current_short (String c raw))
      by (rewrite length_str_split; lia).
    reflexivity.
Qed.

Lemma genLoopPackets_propagates_witness :
  DigiWXDriver.genLoopPackets rain_delta (fun _ => "{}") 1 2
    (driver_state VNone [Fault TypeError])
  = (Raise TypeError, set_feed [] (driver_state VNone [Fault TypeError])) /\
  DigiWXDriver.genLoopPackets rain_delta (fun _ => "{}") 1 2
    (driver_state VNone [Line "DW,-004"])
  = (Raise IndexError,
     set_log (log (after_read "DW,-004" [] (driver_state VNone [Line "DW,-004"]))
              ++ [(DEBUG, "raw data: DW,-004")])
       (after_read "DW,-004" [] (driver_state VNone [Line "DW,-004"]))).
Proof.
  split.
  - apply (proj1 (genLoopPackets_propagates rain_delta (fun _ => "{}") 0 2 1
                    (driver_state VNone [Fault TypeError])
                    (ex_intro _ _ (conj eq_refl eq_refl)))).
    reflexivity.
  - apply (proj2 (genLoopPackets_propagates rain_delta (fun _ => "{}") 0 2 1
                    (driver_state VNone [Line "DW,-004"])
                    (ex_intro _ _ (conj eq_refl eq_refl)))
             "D"%char "W,-004").
    + reflexivity.
    + vm_compute. lia.
Defined.

(* --------------------------------------------------------------------- *)
(* Decimal tokens                                                        *)
(* --------------------------------------------------------------------- *)

Lemma digits_app_stop s1 : forall a k c r,
  all_digits s1 = true -> is_digit c = false ->
  digits a k (s1 ++ String c r)%string
  = (fold_left (fun x d => 10 * x + digit_val d) (chars s1) a,
     (k + String.length s1)%nat, String c r).
Proof.
  induction s1 as [|d s1 IH]; simpl; intros a k c r H Hc.
  - now rewrite Hc, Nat.add_0_r.
  - apply andb_prop in H as [Hd Hs]. rewrite Hd, (IH _ _ _ _ Hs Hc).
    now rewrite Nat.add_succ_r.
Qed.

Lemma chars_app s1 s2 : chars (s1 ++ s2)%string = chars s1 ++ chars s2.
Proof. induction s1 as [|c s1 IH]; simpl; [reflexivity|now rewrite IH]. Qed.

Lemma rstrip_app_digits s ds :
  all_digits ds = true -> ds <> EmptyString ->
  rstrip (s ++ ds)%string = (s ++ ds)%string.
Proof.
  intros Hd Hne. induction s as [|c s IH]; simpl.
  - now apply rstrip_digits.
  - change (String c s ++ ds)%string with (String c (s ++ ds))%string.
    simpl rstrip. rewrite IH. destruct (s ++ ds)%string eqn:E; [|reflexivity].
    destruct s; [simpl in E; contradiction|discriminate E].
Qed.

Lemma app_point a b :
  ((a ++ String "." EmptyString) ++ b)%string = (a ++ String "." b)%string.
Proof.
  induction a as [|c a IH]; [reflexivity|].
  change (String c ((a ++ String "." EmptyString) ++ b)
          = String c (a ++ String "." b))%string.
  now rewrite IH.
Qed.

Lemma digit_not_word c r :
  is_digit c = true ->
  lowercase (String c r) <> "inf" /\ lowercase (String c r) <> "infinity" /\
  lowercase (String c r) <> "nan".
Proof.
  intros H. destruct c as [[] [] [] [] [] [] [] []]; vm_compute in H;
    try discriminate; repeat split; intros E; simpl in E; discriminate.
Qed.

Lemma py_float_point ds1 ds2 :
  all_digits ds1 = true -> ds1 <> EmptyString ->
  all_digits ds2 = true -> ds2 <> EmptyString ->
  py_float (ds1 ++ String "." ds2)%string
  = Ok (b64_of_decimal false (decimal_value (ds1 ++ ds2)%string)
          (- Z.of_nat (String.length ds2))).
Proof.
  intros H1 N1 H2 N2. unfold py_float.
  destruct ds1 as [|c r]; [contradiction|].
  pose proof H1 as H1'. simpl in H1'. apply andb_prop in H1' as [Hc Hr].
  assert (Hs : strip (String c r ++ String "." ds2)%string
               = (String c r ++ String "." ds2)%string).
  { unfold strip.
    change (String c r ++ String "." ds2)%string
      with (String c (r ++ String "." ds2))%string.
    simpl lstrip. rewrite (digit_not_space c Hc).
    change (String c (r ++ String "." ds2))%string
      with (String c r ++ String "." ds2)%string.
    rewrite <- (app_point (String c r) ds2).
    now apply rstrip_app_digits. }
  rewrite Hs.
  change (String c r ++ String "." ds2)%string
    with (String c (r ++ String "." ds2))%string.
  rewrite (digit_not_sign c _ Hc).
  destruct (digit_not_word c (r ++ String "." ds2)%string Hc) as (W1 & W2 & W3).
  apply String.eqb_neq in W1, W2, W3. rewrite W1, W2, W3. simpl orb. cbv iota.
  change (String c (r ++ String "." ds2))%string
    with (String c r ++ String "." ds2)%string.
  rewrite (digits_app_stop (String c r) 0 0 "." ds2 H1 eq_refl).
  rewrite (digits_all ds2 _ 0 H2).
  destruct ds2 as [|d ds2]; [contradiction|].
  simpl Nat.add. unfold exponent. cbv iota beta.
  unfold decimal_value. rewrite chars_app, fold_left_app.
  f_equal.
Qed.

(** X22: a pressure token written as digits, a point and digits always
    parses, to the binary64 float nearest to that decimal: parse_float
    gives the float of the digits taken as an integer, scaled down by ten
    for each digit after the point. *)
Theorem parse_float_decimal ds1 ds2 :
  all_digits ds1 = true -> ds1 <> EmptyString ->
  all_digits ds2 = true -> ds2 <> EmptyString ->
  parse_float (ds1 ++ String "." ds2)%string
  = Ok (VFloat (b64_of_decimal false (decimal_value (ds1 ++ ds2)%string)
                  (- Z.of_nat (String.length ds2)))).
Proof.
  intros H1 N1 H2 N2. unfold parse_float.
  now rewrite (py_float_point ds1 ds2 H1 N1 H2 N2).
Qed.

Lemma parse_float_decimal_witness :
  parse_float "29.98"
  = Ok (VFloat (b64_of_decimal false (decimal_value "2998") (- 2))).
Proof.
  apply (parse_float_decimal "29" "98"); (reflexivity || discriminate).
Defined.
